(** * gcpwatch: the release-notes extraction pipeline of [gcpwatch.py]

    A shallow embedding of the [ReleaseNotesScraper] class and of [main],
    followed by the properties of the date recognizer, the categorizer, the
    two extractors, the date-window filter, the renderers' ordering and the
    error handling.

    Conventions.
    - A Python [str] is a [string]; its characters are the code points below
      256, with Python's Unicode classification of them ([str.isspace],
      [\d], [\w], [str.lower]).
    - A Python exception is a constructor of [exn]; a call that may raise
      returns an [outcome].
    - The markup tree and the HTTP client are libraries outside the
      repository: an element is the record of what the scraper observes of it
      ([str(e)], [e.get_text(strip=True)], [e.get('class', [])], ...). *)

From Stdlib Require Import ZArith List String Ascii Bool Lia Arith.
From Stdlib Require Import Numbers.DecimalString.
From Stdlib Require Import Sorting.Sorted Sorting.Permutation.
Import ListNotations.

Local Open Scope list_scope.

(** ** Exceptions and outcomes *)

Inductive exn : Type :=
| ValueError
| AttributeError
| OverflowError
| RequestException
| IOError
| OtherError.

Inductive outcome (A : Type) : Type :=
| Return (a : A)
| Raise (e : exn).
Arguments Return {A} a.
Arguments Raise {A} e.

(** ** The parts of the Python standard library the scraper calls *)

Module Py.

Definition ord (c : ascii) : N := N_of_ascii c.

Definition in_range (lo hi : N) (c : ascii) : bool :=
  (N.leb lo (ord c) && N.leb (ord c) hi)%bool.

(** [str.isspace] and the regex class [\s]. *)
Definition isspace (c : ascii) : bool :=
  in_range 9 13 c || in_range 28 32 c || N.eqb (ord c) 133 || N.eqb (ord c) 160.

(** The regex class [\d]. *)
Definition isdecimal (c : ascii) : bool := in_range 48 57 c.

Definition isupper (c : ascii) : bool :=
  in_range 65 90 c || (in_range 192 222 c && negb (N.eqb (ord c) 215)).

(** The regex class [\w]: letters, digits and numeric characters, underscore. *)
Definition isword (c : ascii) : bool :=
  in_range 48 57 c || in_range 65 90 c || in_range 97 122 c || N.eqb (ord c) 95
  || N.eqb (ord c) 170 || in_range 178 179 c || N.eqb (ord c) 181
  || in_range 185 186 c || in_range 188 190 c
  || in_range 192 214 c || in_range 216 246 c || in_range 248 255 c.

Definition lower_char (c : ascii) : ascii :=
  if isupper c then ascii_of_N (ord c + 32) else c.

Fixpoint lower (s : string) : string :=
  match s with
  | EmptyString => EmptyString
  | String c s' => String (lower_char c) (lower s')
  end.

Fixpoint lstrip_chars (s : list ascii) : list ascii :=
  match s with
  | c :: s' => if isspace c then lstrip_chars s' else s
  | [] => []
  end.

Definition strip_chars (s : list ascii) : list ascii :=
  rev (lstrip_chars (rev (lstrip_chars s))).

(** [s.strip()] *)
Definition strip (s : string) : string :=
  string_of_list_ascii (strip_chars (list_ascii_of_string s)).

(** [needle in hay] *)
Fixpoint contains (needle hay : string) : bool :=
  String.prefix needle hay ||
  match hay with
  | EmptyString => false
  | String _ hay' => contains needle hay'
  end.

(** [any(k in text for k in keywords)] *)
Definition any_in (keywords : list string) (text : string) : bool :=
  existsb (fun k => contains k text) keywords.

(** [len(s)] *)
Definition len (s : string) : Z := Z.of_nat (String.length s).

(** Truthiness of a [str]. *)
Definition truthy (s : string) : bool :=
  match s with EmptyString => false | _ => true end.

(** [sep.join(parts)] *)
Fixpoint join (sep : string) (parts : list string) : string :=
  match parts with
  | [] => EmptyString
  | [p] => p
  | p :: ps => (p ++ sep ++ join sep ps)%string
  end.

(** [int(s)] on a string of decimal digits, blanks around them allowed. *)
Definition digit_value (c : ascii) : Z := (Z.of_N (ord c) - 48)%Z.

Definition int (s : list ascii) : Z :=
  fold_left (fun acc c => (10 * acc + digit_value c)%Z) (strip_chars s) 0%Z.

(** *** The backtracking matcher of [re]

    Only the constructs of the patterns in this program.  [run] lists the
    ways a pattern matches at the start of the input, in the order the
    backtracking engine tries them: the head is the match [re.match] reports. *)

Inductive regex : Type :=
| Emp
| Chr (c : ascii)
| Cls (p : ascii -> bool)
| Rep (p : ascii -> bool) (lo : nat) (hi : option nat)
| Cat (r1 r2 : regex)
| Alt (r1 r2 : regex)
| Grp (name : string) (r : regex).

Definition captures : Type := list (string * list ascii).

(** Greedy repetition of a class: the inputs left after [k] characters,
    [lo <= k <= hi], the longest first. *)
Fixpoint greedy (p : ascii -> bool) (lo hi : nat) (s : list ascii)
  : list (list ascii) :=
  let stop := if Nat.eqb lo 0 then [s] else [] in
  match hi, s with
  | S hi', c :: s' => if p c then greedy p (Nat.pred lo) hi' s' ++ stop else stop
  | _, _ => stop
  end.

Definition same_char (ignorecase : bool) (a b : ascii) : bool :=
  if ignorecase then Ascii.eqb (lower_char a) (lower_char b) else Ascii.eqb a b.

Fixpoint run (ignorecase : bool) (r : regex) (s : list ascii)
  : list (captures * list ascii) :=
  match r with
  | Emp => [([], s)]
  | Chr c =>
      match s with
      | x :: s' => if same_char ignorecase c x then [([], s')] else []
      | [] => []
      end
  | Cls p =>
      match s with
      | x :: s' => if p x then [([], s')] else []
      | [] => []
      end
  | Rep p lo hi =>
      map (fun s' => ([], s'))
          (greedy p lo (match hi with Some h => h | None => List.length s end) s)
  | Cat r1 r2 =>
      flat_map (fun m1 =>
                  map (fun m2 => (fst m1 ++ fst m2, snd m2))
                      (run ignorecase r2 (snd m1)))
               (run ignorecase r1 s)
  | Alt r1 r2 => run ignorecase r1 s ++ run ignorecase r2 s
  | Grp name r1 =>
      map (fun m => ((name, firstn (List.length s - List.length (snd m)) s) :: fst m,
                     snd m))
          (run ignorecase r1 s)
  end.

(** [re.match(r, s)]: the captures and the unread rest of the input. *)
Definition re_match (ignorecase : bool) (r : regex) (s : list ascii)
  : option (captures * list ascii) :=
  hd_error (run ignorecase r s).

Fixpoint group (name : string) (caps : captures) : option (list ascii) :=
  match caps with
  | [] => None
  | (n, v) :: caps' => if String.eqb n name then Some v else group name caps'
  end.

(** The literal string [w] as a pattern. *)
Fixpoint word (w : string) : regex :=
  match w with
  | EmptyString => Emp
  | String c w' => Cat (Chr c) (word w')
  end.

Fixpoint alternation (rs : list regex) : regex :=
  match rs with
  | [] => Emp
  | [r] => r
  | r :: rs' => Alt r (alternation rs')
  end.

(** [re.search(r, s)]: the leftmost position where [r] matches. *)
Fixpoint re_search (r : regex) (s : list ascii) : option (captures * list ascii) :=
  match re_match false r s with
  | Some m => Some m
  | None =>
      match s with
      | [] => None
      | _ :: s' => re_search r s'
      end
  end.

(** [m.group(1)] of [re.search(r, s)]. *)
Definition search_group1 (r : regex) (s : string) : option string :=
  match re_search r (list_ascii_of_string s) with
  | Some (caps, _) => option_map string_of_list_ascii (group "1" caps)
  | None => None
  end.

(** [re.findall(r, s)] for a pattern with one group: the group's text at each
    match, the matches not overlapping.  [skip] counts the characters of the
    last match still to be passed over. *)
Fixpoint findall_from (r : regex) (s : list ascii) (skip : nat) : list string :=
  match s with
  | [] => []
  | _ :: s' =>
      match skip with
      | S k => findall_from r s' k
      | O =>
          match re_match false r s with
          | Some (caps, rest) =>
              match group "1" caps with
              | Some v =>
                  string_of_list_ascii v
                    :: findall_from r s' (Nat.pred (List.length s - List.length rest))
              | None => findall_from r s' O
              end
          | None => findall_from r s' O
          end
      end
  end.

Definition findall (r : regex) (s : string) : list string :=
  findall_from r (list_ascii_of_string s) O.

(** [s * n] *)
Fixpoint times (s : string) (n : nat) : string :=
  match n with
  | O => EmptyString
  | S n' => (s ++ times s n')%string
  end.

(** [str(n)] for an [int]. *)
Definition str (n : Z) : string := NilEmpty.string_of_int (Z.to_int n).

(** [s.replace(old, new)] for a non-empty [old]: the occurrences from left to
    right, not overlapping.  [skip] counts the characters of the last
    occurrence still to be dropped. *)
Fixpoint replace_from (old new s : string) (skip : nat) : string :=
  match s with
  | EmptyString => EmptyString
  | String c s' =>
      match skip with
      | S k => replace_from old new s' k
      | O =>
          if String.prefix old s
          then (new ++ replace_from old new s' (Nat.pred (String.length old)))%string
          else String c (replace_from old new s' O)
      end
  end.

Definition replace (old new s : string) : string := replace_from old new s O.

(** [s.upper()] and [s.title()], on the letters a-z and A-Z: the category
    labels they are applied to have no other letters. *)
Definition upper_char (c : ascii) : ascii :=
  if in_range 97 122 c then ascii_of_N (ord c - 32) else c.

Fixpoint upper (s : string) : string :=
  match s with
  | EmptyString => EmptyString
  | String c s' => String (upper_char c) (upper s')
  end.

Definition isalpha (c : ascii) : bool := in_range 65 90 c || in_range 97 122 c.

Fixpoint title_from (s : string) (inside_word : bool) : string :=
  match s with
  | EmptyString => EmptyString
  | String c s' =>
      String (if inside_word then lower_char c else upper_char c)
             (title_from s' (isalpha c))
  end.

Definition title (s : string) : string := title_from s false.

(** The newline and the double quote. *)
Definition nl : string := String (ascii_of_N 10) EmptyString.
Definition dq : string := String (ascii_of_N 34) EmptyString.

(** [list.sort(key=key, reverse=True)] and [sorted(l, key=key, reverse=True)]:
    a stable sort, elements of equal key keep their order. *)
Fixpoint insert_desc {A : Type} (key : A -> Z) (x : A) (l : list A) : list A :=
  match l with
  | [] => [x]
  | y :: l' => if (key x <? key y)%Z then y :: insert_desc key x l' else x :: l
  end.

Fixpoint sort_desc {A : Type} (key : A -> Z) (l : list A) : list A :=
  match l with
  | [] => []
  | x :: l' => insert_desc key x (sort_desc key l')
  end.

End Py.

(** ** [datetime]: calendar values, [strptime], time stamps *)

Module Datetime.

Import Py.
Local Open Scope Z_scope.

(** A [datetime] value: the calendar fields and the time of day in
    microseconds since midnight. *)
Record datetime : Type := mkdatetime {
  year : Z;
  month : Z;
  day : Z;
  time_of_day : Z
}.

(** The value [datetime(y, m, d)], at midnight. *)
Definition midnight (y m d : Z) : datetime := mkdatetime y m d 0.

Definition is_leap (y : Z) : bool :=
  (y mod 4 =? 0) && (negb (y mod 100 =? 0) || (y mod 400 =? 0)).

Definition days_in_month (y m : Z) : Z :=
  if m =? 2 then (if is_leap y then 29 else 28)
  else if (m =? 4) || (m =? 6) || (m =? 9) || (m =? 11) then 30
  else 31.

(** The check of the [datetime] constructor on the date fields. *)
Definition check_date_fields (y m d : Z) : bool :=
  (1 <=? y) && (y <=? 9999) && (1 <=? m) && (m <=? 12)
  && (1 <=? d) && (d <=? days_in_month y m).

Definition days_before_year (y : Z) : Z :=
  let p := y - 1 in p * 365 + p / 4 - p / 100 + p / 400.

Fixpoint days_before_month_nat (y : Z) (m : nat) : Z :=
  match m with
  | O => 0
  | S m' => days_before_month_nat y m' + days_in_month y (Z.of_nat m)
  end.

Definition days_before_month (y m : Z) : Z :=
  days_before_month_nat y (Z.to_nat (m - 1)).

(** [d.toordinal()]: 0001-01-01 is day 1. *)
Definition toordinal (d : datetime) : Z :=
  days_before_year (year d) + days_before_month (year d) (month d) + day d.

Definition day_us : Z := 86400 * 1000000.

(** The position of a [datetime] on the time line, in microseconds: Python
    orders [datetime] values by their fields, which on valid values is the
    order of their time stamps, and adds a [timedelta] on this line. *)
Definition timestamp (d : datetime) : Z := toordinal d * day_us + time_of_day d.

(** [datetime.min] *)
Definition datetime_min : datetime := midnight 1 1 1.
(** [datetime.max] *)
Definition datetime_max : datetime := mkdatetime 9999 12 31 (day_us - 1).

(** *** [_strptime]: the locale's month names and the directive patterns *)

Definition month_name : list string :=
  ["january"; "february"; "march"; "april"; "may"; "june"; "july"; "august";
   "september"; "october"; "november"; "december"]%string.

Definition month_abbr : list string :=
  ["jan"; "feb"; "mar"; "apr"; "may"; "jun"; "jul"; "aug"; "sep"; "oct"; "nov";
   "dec"]%string.

(** [__seqToRE]: the names, the longest first, as one alternation. *)
Definition seqToRE (names : list string) (directive : string) : regex :=
  Grp directive (alternation (map word (sort_desc len names))).

Definition digit_pattern (lo hi : N) : regex := Cls (in_range lo hi).

Definition ch (s : string) : ascii :=
  match s with String c _ => c | EmptyString => zero end.

(** [(?P<d>3[0-1]|[1-2]\d|0[1-9]|[1-9]| [1-9])] *)
Definition regex_d : regex :=
  Grp "d" (alternation
    [Cat (Chr (ch "3")) (digit_pattern 48 49);
     Cat (digit_pattern 49 50) (Cls isdecimal);
     Cat (Chr (ch "0")) (digit_pattern 49 57);
     digit_pattern 49 57;
     Cat (Chr (ch " ")) (digit_pattern 49 57)]).

(** [(?P<m>1[0-2]|0[1-9]|[1-9])] *)
Definition regex_m : regex :=
  Grp "m" (alternation
    [Cat (Chr (ch "1")) (digit_pattern 48 50);
     Cat (Chr (ch "0")) (digit_pattern 49 57);
     digit_pattern 49 57]).

(** [(?P<Y>\d\d\d\d)] *)
Definition regex_Y : regex := Grp "Y" (Rep isdecimal 4 (Some 4%nat)).

Definition directive (c : ascii) : option regex :=
  if Ascii.eqb c (ch "B") then Some (seqToRE month_name "B")
  else if Ascii.eqb c (ch "b") then Some (seqToRE month_abbr "b")
  else if Ascii.eqb c (ch "d") then Some regex_d
  else if Ascii.eqb c (ch "m") then Some regex_m
  else if Ascii.eqb c (ch "Y") then Some regex_Y
  else None.

(** [TimeRE.pattern]: a directive becomes its pattern, a run of blanks
    becomes [\s+], any other character stands for itself. *)
Fixpoint format_regex (fmt : list ascii) : option regex :=
  match fmt with
  | [] => Some Emp
  | c :: fmt' =>
      if Ascii.eqb c (ch "%") then
        match fmt' with
        | [] => None
        | d :: fmt'' =>
            match directive d, format_regex fmt'' with
            | Some r, Some r' => Some (Cat r r')
            | _, _ => None
            end
        end
      else if isspace c then
        match fmt' with
        | c' :: _ =>
            if isspace c' then format_regex fmt'
            else option_map (Cat (Rep isspace 1 None)) (format_regex fmt')
        | [] => Some (Rep isspace 1 None)
        end
      else option_map (Cat (Chr c)) (format_regex fmt')
  end.

(** The 1-based position of a name in the locale's list. *)
Fixpoint index_of (name : string) (names : list string) (i : Z) : Z :=
  match names with
  | [] => i
  | n :: names' => if String.eqb n name then i else index_of name names' (i + 1)
  end.

Definition month_of (caps : captures) : Z :=
  match group "m" caps, group "B" caps, group "b" caps with
  | Some v, _, _ => int v
  | None, Some v, _ => index_of (lower (string_of_list_ascii v)) month_name 1
  | None, None, Some v => index_of (lower (string_of_list_ascii v)) month_abbr 1
  | None, None, None => 1
  end.

Definition field (name : string) (default : Z) (caps : captures) : Z :=
  match group name caps with Some v => int v | None => default end.

(** [datetime.strptime(data_string, format)].  Every failure is a
    [ValueError]: a bad directive, no match, unconverted data after the
    match, and a date the calendar does not have. *)
Definition strptime (data_string format : string) : outcome datetime :=
  match format_regex (list_ascii_of_string format) with
  | None => Raise ValueError
  | Some r =>
      match re_match true r (list_ascii_of_string data_string) with
      | None => Raise ValueError
      | Some (caps, rest) =>
          match rest with
          | _ :: _ => Raise ValueError
          | [] =>
              let y := field "Y" 1900 caps in
              let m := month_of caps in
              let d := field "d" 1 caps in
              if check_date_fields y m d then Return (midnight y m d)
              else Raise ValueError
          end
      end
  end.

End Datetime.
Export Datetime.

(** ** [ReleaseNotesScraper._parse_date] *)

Local Open Scope string_scope.

Definition formats : list string :=
  [ "%B %d, %Y"      (* January 15, 2024 *)
  ; "%b %d, %Y"      (* Jan 15, 2024 *)
  ; "%Y-%m-%d"       (* 2024-01-15 *)
  ; "%m/%d/%Y"       (* 01/15/2024 *)
  ; "%d/%m/%Y"       (* 15/01/2024 *)
  ].

(** The loop [for fmt in formats: try: return strptime(..) except ValueError:
    continue], then [return None].  Only [ValueError] is caught. *)
Fixpoint try_formats (date_str : string) (fmts : list string)
  : outcome (option datetime) :=
  match fmts with
  | [] => Return None
  | fmt :: fmts' =>
      match strptime date_str fmt with
      | Return d => Return (Some d)
      | Raise ValueError => try_formats date_str fmts'
      | Raise e => Raise e
      end
  end.

Definition _parse_date (date_str : string) : outcome (option datetime) :=
  let date_str := Py.strip date_str in
  try_formats date_str formats.


(** ** The markup tree, as the scraper observes it *)

(** A tag of the parsed page. *)
#[warnings="-register-all"]
Inductive Element : Type :=
  mkElement
    (name : string)            (* e.name *)
    (classes : list string)    (* e.get('class', []) *)
    (markup : string)          (* str(e), the raw payload *)
    (flat_text : string)       (* e.get_text(strip=True) *)
    (hrefs : list string)      (* [a.get('href') for a in e.find_all('a') if a.get('href')] *)
    (entries : list Element).  (* e.find_all('li') *)

Definition name (e : Element) : string := let (n, _, _, _, _, _) := e in n.
Definition classes (e : Element) : list string := let (_, c, _, _, _, _) := e in c.
Definition markup (e : Element) : string := let (_, _, m, _, _, _) := e in m.
Definition get_text (e : Element) : string := let (_, _, _, t, _, _) := e in t.
Definition hrefs (e : Element) : list string := let (_, _, _, _, h, _) := e in h.
Definition find_all_li (e : Element) : list Element := let (_, _, _, _, _, l) := e in l.

(** [x in l] for a list of strings. *)
Definition mem (x : string) (l : list string) : bool := existsb (String.eqb x) l.

(** ** [ReleaseNotesScraper._categorize_item] *)

(** Lines 141-186: the keyword tests on the lower-cased text, top to bottom. *)
Definition keyword_cascade (text_lower : string) : string :=
  if Py.any_in ["security"; "vulnerability"; "cve"; "patch"] text_lower then
    "security"
  else if Py.any_in ["breaking change"; "breaking change:"; "migration required";
                     "major version update"] text_lower then
    "breaking"
  else if Py.any_in ["(preview)"; "public preview"; "in preview"; "preview)";
                     "early access"; "beta"] text_lower then
    "public-preview"
  else if Py.any_in ["generally available"; "general availability"; "(ga)";
                     "is now ga"; "is in ga"; "in general availability"]
                    text_lower then
    "ga"
  else if Py.any_in ["deprecated"; "deprecation"; "obsolete"; "removed";
                     "discontinued"] text_lower then
    "deprecated"
  else if Py.any_in ["fixed"; "fix:"; "resolved"; "bug"] text_lower then
    "fixed"
  else if Py.any_in ["issue"; "known issue"; "workaround"] text_lower then
    "issue"
  else if Py.any_in ["changed:"; "migration required"; "version updates"]
                    text_lower then
    "change"
  else if Py.any_in ["announced"; "announcement"; "introducing"] text_lower then
    "announcement"
  else if Py.any_in ["library"; "sdk"; "api"; "client library"; "framework"]
                    text_lower then
    "libraries"
  else
    "update".

(** Truthiness of an optional [str]: [None] and the empty string are false. *)
Definition text_given (text : option string) : bool :=
  match text with Some t => Py.truthy t | None => false end.

(** Lines 134-186: no element, or no class of the element decided. *)
Definition text_analysis (element : option Element) (text : option string)
  : string :=
  let text :=
    match element with
    | Some e => if text_given text then text else Some (get_text e)
    | None => text
    end in
  if text_given text then
    match text with
    | Some t => keyword_cascade (Py.lower t)
    | None => "update"
    end
  else "update".

(** [' '.join(element_classes) if element_classes else ''] *)
Definition class_str (e : Element) : string :=
  match classes e with
  | [] => ""
  | cs => Py.join " " cs
  end.

Definition _categorize_item (element : option Element) (text : option string)
  : string :=
  match element with
  | Some e =>
      let class_str := class_str e in
      if Py.contains "release-feature" class_str then
        let element_text := get_text e in
        if Py.contains "(Preview)" element_text
           || Py.contains "(preview)" element_text
        then "public-preview"
        else "ga"
      else if Py.contains "release-changed" class_str then "change"
      else if Py.contains "release-announcement" class_str then "announcement"
      else if Py.contains "release-breaking" class_str then "breaking"
      else if Py.contains "release-issue" class_str then "issue"
      else text_analysis element text
  | None => text_analysis element text
  end.


(** ** The release model *)

Module Item.
(** One entry of a release: the dict with keys ['text'], ['category'], ['urls']. *)
Record t : Type := mk {
  text : string;          (* the raw markup payload *)
  category : string;
  urls : list string
}.
End Item.

Module Group.
(** One dated release: the dict with keys ['date'], ['date_str'], ['items'],
    ['url']. *)
Record t : Type := mk {
  date : option datetime;
  date_str : string;
  items : list Item.t;
  url : string
}.
End Group.

(** ** The page *)

(** A tag that [find_all(header_tag)] may return: its name, its flattened
    text, and the tags [find_next_sibling()] reaches from it, one after the
    other. *)
Record Header : Type := mkHeader {
  header_name : string;
  header_text : string;
  next_siblings : list Element
}.

(** A [div] returned by [find_all('div', class_=[...])], with what the three
    neighbours [previous_sibling], [parent], [next_sibling] give: [Some] of
    the flattened text where the neighbour is truthy and has [get_text],
    [None] otherwise. *)
Record RoleDiv : Type := mkRoleDiv {
  div : Element;
  previous_sibling : option string;
  parent : option string;
  next_sibling : option string
}.

(** A text node returned by [find_all(text=True)]: its text, and what the
    expression [text.parent] evaluates to once [text] has been rebound to
    [text.strip()].  ([str.strip] of CPython returns a plain [str], which has
    no attribute [parent]: on the interpreter the field is
    [Raise AttributeError].  The extractor is embedded for any value of it.) *)
Record TextNode : Type := mkTextNode {
  node_text : string;
  stripped_parent : outcome (option Element)
}.

Record ContentArea : Type := mkContentArea {
  tags : list Header;          (* the tags of the area, in document order *)
  role_divs : list RoleDiv;
  text_nodes : list TextNode
}.

(** [content_area.find_all(header_tag)] *)
Definition find_all (content_area : ContentArea) (tag : string) : list Header :=
  filter (fun h => String.eqb (header_name h) tag) (tags content_area).

(** ** [PLATFORM_SELECTORS]: the entries the extractors read *)

Record Selectors : Type := mkSelectors {
  date_headers : list string;
  date_patterns : list Py.regex
}.

Import Py.

(** [(\w+\s+\d{1,2},\s+\d{4})] *)
Definition pattern_month_name : regex :=
  Grp "1" (Cat (Rep isword 1 None) (Cat (Rep isspace 1 None)
          (Cat (Rep isdecimal 1 (Some 2%nat)) (Cat (Chr (ch ","))
          (Cat (Rep isspace 1 None) (Rep isdecimal 4 (Some 4%nat))))))).

(** [(\d{4}-\d{2}-\d{2})] *)
Definition pattern_iso : regex :=
  Grp "1" (Cat (Rep isdecimal 4 (Some 4%nat)) (Cat (Chr (ch "-"))
          (Cat (Rep isdecimal 2 (Some 2%nat)) (Cat (Chr (ch "-"))
          (Rep isdecimal 2 (Some 2%nat)))))).

(** [(\d{1,2}/\d{1,2}/\d{4})] *)
Definition pattern_slash : regex :=
  Grp "1" (Cat (Rep isdecimal 1 (Some 2%nat)) (Cat (Chr (ch "/"))
          (Cat (Rep isdecimal 1 (Some 2%nat)) (Cat (Chr (ch "/"))
          (Rep isdecimal 4 (Some 4%nat)))))).

Definition PLATFORM_SELECTORS (platform : string) : Selectors :=
  if String.eqb platform "google_cloud" then
    mkSelectors ["h2"; "h3"] [pattern_month_name; pattern_iso; pattern_slash]
  else
    mkSelectors ["h2"; "h3"; "h4"] [pattern_month_name; pattern_iso; pattern_slash].

Definition _detect_platform (url : string) : string :=
  if contains "cloud.google.com" url then "google_cloud" else "generic".

(** ** The scraper object and the monad of its methods *)

Record Scraper : Type := mkScraper {
  url : string;
  months : Z;
  cutoff_date : Z;              (* the time stamp of [self.cutoff_date] *)
  releases : list Group.t;
  platform : string
}.

Definition set_releases (self : Scraper) (rs : list Group.t) : Scraper :=
  mkScraper (url self) (months self) (cutoff_date self) rs (platform self).

(** The extractor methods, for the log of calls. *)
Inductive call : Type :=
| StructuredExtractor
| UnstructuredExtractor.

(** A method body: it reads and updates the object, logs the extractors it
    enters, and returns or raises.  The object and the log survive a raise. *)
Definition M (A : Type) : Type := Scraper -> Scraper * list call * outcome A.

Definition ret {A : Type} (a : A) : M A := fun self => (self, [], Return a).

Definition bind {A B : Type} (m : M A) (k : A -> M B) : M B :=
  fun self =>
    match m self with
    | (self1, log1, Return a) =>
        match k a self1 with
        | (self2, log2, r) => (self2, (log1 ++ log2)%list, r)
        end
    | (self1, log1, Raise e) => (self1, log1, Raise e)
    end.

Notation "x <- m ;; k" := (bind m (fun x => k))
  (at level 61, m at next level, right associativity).
Notation "m ;;; k" := (bind m (fun _ => k))
  (at level 61, right associativity).

Definition lift {A : Type} (o : outcome A) : M A := fun self => (self, [], o).
Definition get : M Scraper := fun self => (self, [], Return self).
Definition enter (c : call) : M unit := fun self => (self, [c], Return tt).

(** [self.releases.append(group)] *)
Definition append_release (g : Group.t) : M unit :=
  fun self => (set_releases self (releases self ++ [g])%list, [], Return tt).

(** [try: body except Exception: handler] *)
Definition try_except {A : Type} (body : M A) (handler : exn -> M A) : M A :=
  fun self =>
    match body self with
    | (self1, log1, Raise e) =>
        match handler e self1 with
        | (self2, log2, r) => (self2, (log1 ++ log2)%list, r)
        end
    | done => done
    end.

(** [for x in xs: body(x)] *)
Fixpoint for_each {A : Type} (xs : list A) (body : A -> M unit) : M unit :=
  match xs with
  | [] => ret tt
  | x :: xs' => body x ;;; for_each xs' body
  end.

(** ** [ReleaseNotesScraper.__init__] *)

(** [timedelta(days=n)], in microseconds. *)
Definition timedelta_days (n : Z) : outcome Z :=
  if (Z.abs n <=? 999999999)%Z then Return (n * day_us)%Z else Raise OverflowError.

(** [t - delta] on [datetime] values. *)
Definition datetime_sub (t delta : Z) : outcome Z :=
  let r := (t - delta)%Z in
  if ((timestamp datetime_min <=? r) && (r <=? timestamp datetime_max))%Z
  then Return r else Raise OverflowError.

Definition __init__ (now : Z) (url : string) (months : Z) : outcome Scraper :=
  match timedelta_days (months * 30) with
  | Return delta =>
      match datetime_sub now delta with
      | Return cutoff => Return (mkScraper url months cutoff [] (_detect_platform url))
      | Raise e => Raise e
      end
  | Raise e => Raise e
  end.

(** ** [ReleaseNotesScraper._parse_structured_releases] *)

Definition role_classes : list string :=
  ["release-feature"; "release-changed"; "release-announcement";
   "release-breaking"; "release-issue"].

(** [any(cls in [...] for cls in div_classes)] *)
Definition has_role_class (e : Element) : bool :=
  existsb (fun cls => mem cls role_classes) (classes e).

(** The dict [{'text': str(e), 'category': ..., 'urls': links}]. *)
Definition make_item (e : Element) (text : string) : Item.t :=
  Item.mk (markup e) (_categorize_item (Some e) (Some text)) (hrefs e).

(** Lines 267-275: the sibling carries a release class. *)
Definition role_branch (sibling : Element) : list Item.t :=
  let text := get_text sibling in
  if truthy text && (10 <? len text)%Z then [make_item sibling text] else [].

(** Lines 279-288: a list, one item for each [li] below it. *)
Definition list_branch (sibling : Element) : list Item.t :=
  flat_map (fun li =>
              let li_text := get_text li in
              if truthy li_text then [make_item li li_text] else [])
           (find_all_li sibling).

(** Lines 290-298: a paragraph, a list entry or a [div]. *)
Definition block_branch (sibling : Element) : list Item.t :=
  let text := get_text sibling in
  if truthy text && (10 <? len text)%Z then [make_item sibling text] else [].

(** One round of the [while] loop: the items it appends. *)
Definition walk_step (sibling : Element) : list Item.t :=
  if has_role_class sibling then role_branch sibling
  else if mem (name sibling) ["p"; "ul"; "ol"; "li"; "div"] then
    if mem (name sibling) ["ul"; "ol"] then list_branch sibling
    else block_branch sibling
  else [].

(** [while sibling and sibling.name not in selectors['date_headers']] *)
Fixpoint walk (selectors : Selectors) (siblings : list Element)
  (items : list Item.t) : list Item.t :=
  match siblings with
  | [] => items
  | sibling :: rest =>
      if mem (name sibling) (date_headers selectors) then items
      else walk selectors rest (items ++ walk_step sibling)%list
  end.

(** [for pattern in selectors['date_patterns']] on one header: the loop ends
    at the first pattern whose match parses as a date. *)
Fixpoint header_patterns (selectors : Selectors) (header : Header)
  (patterns : list regex) : M unit :=
  match patterns with
  | [] => ret tt
  | pattern :: patterns' =>
      match search_group1 pattern (header_text header) with
      | Some date_str =>
          parsed_date <- lift (_parse_date date_str) ;;
          match parsed_date with
          | Some d =>
              let items := walk selectors (next_siblings header) [] in
              match items with
              | [] => ret tt
              | _ :: _ =>
                  self <- get ;;
                  append_release (Group.mk (Some d) date_str items (url self))
              end
          | None => header_patterns selectors header patterns'
          end
      | None => header_patterns selectors header patterns'
      end
  end.

Definition _parse_structured_releases (content_area : ContentArea)
  (selectors : Selectors) : M unit :=
  enter StructuredExtractor ;;;
  for_each (date_headers selectors) (fun header_tag =>
    for_each (find_all content_area header_tag) (fun header =>
      header_patterns selectors header (date_patterns selectors))).

(** ** [ReleaseNotesScraper._parse_unstructured_releases] *)

(** The inner [for item in release.get('items', [])], with its [break]. *)
Fixpoint scan_items (items : list Item.t) (text_content : string)
  (is_duplicate : bool) : bool :=
  match items with
  | [] => is_duplicate
  | item :: items' =>
      if String.eqb (Item.text item) text_content then true
      else scan_items items' text_content is_duplicate
  end.

(** The outer [for release in self.releases]: the [break] leaves the inner
    loop only, so every release is scanned. *)
Fixpoint scan_releases (rs : list Group.t) (text_content : string)
  (is_duplicate : bool) : bool :=
  match rs with
  | [] => is_duplicate
  | release :: rs' =>
      scan_releases rs' text_content
        (scan_items (Group.items release) text_content is_duplicate)
  end.

(** Lines 337-356 and 376-394: length test, duplicate test, one-item group. *)
Definition emit (e : Element) (date_found : datetime) (date_str : string)
  : M unit :=
  let text_content := markup e in
  let text := get_text e in
  if truthy text && (20 <? len text)%Z then
    self <- get ;;
    let is_duplicate := scan_releases (releases self) text_content false in
    if negb is_duplicate then
      append_release
        (Group.mk (Some date_found) date_str [make_item e text] (url self))
    else ret tt
  else ret tt.

(** The first pattern that matches: [match.group(1)]. *)
Fixpoint first_match (patterns : list regex) (text : string) : option string :=
  match patterns with
  | [] => None
  | pattern :: patterns' =>
      match search_group1 pattern text with
      | Some date_str => Some date_str
      | None => first_match patterns' text
      end
  end.

(** [for elem in [div.previous_sibling, parent, div.next_sibling]]: the first
    neighbour with a date that parses. *)
Fixpoint date_near (patterns : list regex) (elems : list (option string))
  : M (option (datetime * string)) :=
  match elems with
  | [] => ret None
  | None :: elems' => date_near patterns elems'
  | Some text :: elems' =>
      match first_match patterns text with
      | Some date_str =>
          date_found <- lift (_parse_date date_str) ;;
          match date_found with
          | Some d => ret (Some (d, date_str))
          | None => date_near patterns elems'
          end
      | None => date_near patterns elems'
      end
  end.

(** The first pass, on one release [div]. *)
Definition marked_div (selectors : Selectors) (d : RoleDiv) : M unit :=
  found <- date_near (date_patterns selectors)
             [previous_sibling d; parent d; next_sibling d] ;;
  self <- get ;;
  match found with
  | Some (date_found, date_str) =>
      if (cutoff_date self <=? timestamp date_found)%Z
      then emit (div d) date_found date_str
      else ret tt
  | None => ret tt
  end.

(** The second pass, on one date found in one text node. *)
Definition dated_text (node : TextNode) (date_match : string) : M unit :=
  parsed_date <- lift (_parse_date date_match) ;;
  self <- get ;;
  match parsed_date with
  | Some d =>
      if (cutoff_date self <=? timestamp d)%Z then
        parent <- lift (stripped_parent node) ;;
        match parent with
        | Some p =>
            if negb (mem (name p) ["script"; "style"]) then emit p d date_match
            else ret tt
        | None => ret tt
        end
      else ret tt
  | None => ret tt
  end.

Definition text_node (selectors : Selectors) (node : TextNode) : M unit :=
  let text := strip (node_text node) in
  if negb (truthy text) then ret tt
  else
    for_each (date_patterns selectors) (fun pattern =>
      for_each (findall pattern text) (dated_text node)).

Definition _parse_unstructured_releases (content_area : ContentArea)
  (selectors : Selectors) : M unit :=
  enter UnstructuredExtractor ;;;
  for_each (role_divs content_area) (marked_div selectors) ;;;
  for_each (text_nodes content_area) (text_node selectors).

(** ** [ReleaseNotesScraper.scrape] *)

(** [release['date'] and release['date'] >= self.cutoff_date] *)
Definition in_window (cutoff : Z) (release : Group.t) : bool :=
  match Group.date release with
  | Some d => (cutoff <=? timestamp d)%Z
  | None => false
  end.

(** [page] is what the fetch and the parse of the page give: the content area,
    or the exception of [requests.get], [raise_for_status] or the parser.
    [scrape_body] is the body of the [try]. *)
Definition scrape_body (page : outcome ContentArea) : M (list Group.t) :=
  content_area <- lift page ;;
  self <- get ;;
  let selectors := PLATFORM_SELECTORS (platform self) in
  _parse_structured_releases content_area selectors ;;;
  self <- get ;;
  match releases self with
  | [] => _parse_unstructured_releases content_area selectors
  | _ :: _ => ret tt
  end ;;;
  self <- get ;;
  ret (filter (in_window (cutoff_date self)) (releases self)).

(** The two [except] clauses: both report on stderr and return [[]]. *)
Definition scrape_handler (e : exn) : M (list Group.t) :=
  match e with
  | RequestException => ret []
  | _ => ret []
  end.

Definition scrape (page : outcome ContentArea) : M (list Group.t) :=
  try_except (scrape_body page) scrape_handler.

(** ** The renderers *)

(** The value handed to [json.dumps]. *)
#[warnings="-register-all"]
Inductive json : Type :=
| JNull
| JInt (n : Z)
| JStr (s : string)
| JArr (elements : list json)
| JObj (members : list (string * json)).

(** [lambda x: x['date'] if x['date'] else datetime.min], as a time stamp. *)
Definition sort_key (release : Group.t) : Z :=
  match Group.date release with
  | Some d => timestamp d
  | None => timestamp datetime_min
  end.

(** [releases.sort(key=..., reverse=True)]: the list the renderer then walks. *)
Definition newest_first (releases : list Group.t) : list Group.t :=
  sort_desc sort_key releases.

Definition self_link : string := "https://cloud.google.com/run/docs/release-notes".

(** [category_counts[category] = category_counts.get(category, 0) + 1], the
    dict kept in insertion order. *)
Fixpoint count_category (counts : list (string * Z)) (category : string)
  : list (string * Z) :=
  match counts with
  | [] => [(category, 1%Z)]
  | (c, n) :: counts' =>
      if String.eqb c category then (c, (n + 1)%Z) :: counts'
      else (c, n) :: count_category counts' category
  end.

Definition category_counts (releases : list Group.t) : list (string * Z) :=
  fold_left (fun counts release =>
               fold_left (fun counts item => count_category counts (Item.category item))
                         (Group.items release) counts)
            releases [].

(** [sorted(category_counts.items(), key=lambda x: x[1], reverse=True)] *)
Definition by_count (counts : list (string * Z)) : list (string * Z) :=
  sort_desc snd counts.

(** [sum(len(r['items']) for r in releases)] *)
Definition total_items (releases : list Group.t) : Z :=
  fold_left (fun n r => (n + Z.of_nat (List.length (Group.items r)))%Z) releases 0%Z.

Definition count (releases : list Group.t) : Z := Z.of_nat (List.length releases).

Section Renderers.

(** The library calls of the renderers: the text of a markup fragment
    ([BeautifulSoup(s, 'html.parser').get_text(strip=True)]), [strftime] and
    [isoformat] of the [datetime] at a time stamp, [json.dumps(_, indent=2)],
    the successive readings of [datetime.now()], and the lines of the static
    stylesheet (lines 569-676 of the source). *)
Variable soup_text : string -> string.
Variable strftime : Z -> string -> string.
Variable isoformat : Z -> string.
Variable json_dumps : json -> string.
Variable now : nat -> Z.
Variable stylesheet : list string.

Variable self : Scraper.

(** [text = soup.get_text(strip=True); text = text.replace(self_link, '')] *)
Definition plain (item : Item.t) : string :=
  replace self_link "" (soup_text (Item.text item)).

Definition text_item (item : Item.t) : list string :=
  ["  [" ++ upper (Item.category item) ++ "] " ++ plain item]
  ++ match Item.urls item with
     | [] => []
     | urls => "    Links:" :: map (fun url => "      - " ++ url) urls
     end
  ++ [""].

Definition text_release (release : Group.t) : list string :=
  [nl ++ "## " ++ Group.date_str release; times "-" 40]
  ++ flat_map text_item (Group.items release).

Definition text_statistics (releases : list Group.t) : list string :=
  [nl ++ times "=" 80; "STATISTICS"; times "-" 40;
   "Total releases: " ++ str (count releases);
   "Total items: " ++ str (total_items releases)]
  ++ match category_counts releases with
     | [] => []
     | counts =>
         (nl ++ "Items by category:")
           :: map (fun cc => "  - " ++ fst cc ++ ": " ++ str (snd cc)) (by_count counts)
     end.

Definition _format_text (releases : list Group.t) : string :=
  let output :=
    [times "=" 80; "RELEASE NOTES SUMMARY";
     "Generated: " ++ strftime (now 0) "%Y-%m-%d %H:%M:%S";
     "Time range: Last " ++ str (months self) ++ " months";
     times "=" 80; ""] in
  match releases with
  | [] => join nl (output ++ ["No releases found in the specified time range."])
  | _ :: _ =>
      let releases := newest_first releases in
      join nl (output ++ flat_map text_release releases ++ text_statistics releases)
  end.

Definition markdown_item (item : Item.t) : list string :=
  let badge := "`" ++ Item.category item ++ "`" in
  ("- " ++ badge ++ " " ++ plain item)
    :: map (fun url => "  - [Link](" ++ url ++ ")") (Item.urls item).

Definition markdown_release (release : Group.t) : list string :=
  [nl ++ "## " ++ Group.date_str release ++ nl]
  ++ flat_map markdown_item (Group.items release)
  ++ [""].

Definition markdown_statistics (releases : list Group.t) : list string :=
  [nl ++ "---" ++ nl; "## Statistics" ++ nl;
   "- **Total releases:** " ++ str (count releases);
   "- **Total items:** " ++ str (total_items releases)]
  ++ match category_counts releases with
     | [] => []
     | counts =>
         (nl ++ "### Items by category" ++ nl)
           :: map (fun cc => "- `" ++ fst cc ++ "`: " ++ str (snd cc)) (by_count counts)
     end.

Definition _format_markdown (releases : list Group.t) : string :=
  let output :=
    ["# Release Notes Summary" ++ nl;
     "**Source:** [" ++ url self ++ "](" ++ url self ++ ")  ";
     "**Generated:** " ++ strftime (now 0) "%Y-%m-%d %H:%M:%S" ++ "  ";
     "**Time range:** Last " ++ str (months self) ++ " months" ++ nl;
     "---" ++ nl] in
  match releases with
  | [] => join nl (output ++ ["*No releases found in the specified time range.*"])
  | _ :: _ =>
      let releases := newest_first releases in
      join nl (output ++ flat_map markdown_release releases
                 ++ markdown_statistics releases)
  end.

Definition json_item (item : Item.t) : json :=
  JObj [("text", JStr (plain item));
        ("category", JStr (Item.category item));
        ("urls", JArr (map JStr (Item.urls item)))].

Definition json_release (release : Group.t) : json :=
  JObj [("date", match Group.date release with
                 | Some d => JStr (isoformat (timestamp d))
                 | None => JNull
                 end);
        ("date_str", JStr (Group.date_str release));
        ("items", JArr (map json_item (Group.items release)));
        ("url", JStr (Group.url release))].

(** The dict [output] of [_format_json]. *)
Definition json_output (releases : list Group.t) : json :=
  let releases := newest_first releases in
  JObj [("metadata",
         JObj [("source", JStr (url self));
               ("generated", JStr (isoformat (now 0)));
               ("time_range_months", JInt (months self));
               ("cutoff_date", JStr (isoformat (cutoff_date self)))]);
        ("statistics",
         JObj [("total_releases", JInt (count releases));
               ("total_items", JInt (total_items releases))]);
        ("releases", JArr (map json_release releases))].

Definition _format_json (releases : list Group.t) : string :=
  json_dumps (json_output releases).

(** A line of markup, written with ['] for the double quote. *)
Definition q (line : string) : string := replace "'" dq line.

Definition html_item (item : Item.t) : list string :=
  let category_class := replace "-" "" (Item.category item) in
  [q "        <div class='release-item " ++ category_class ++ q "'>";
   q "            <span class='category " ++ category_class ++ q "'>"
     ++ upper (replace "-" " " (Item.category item)) ++ "</span>";
   "            " ++ Item.text item;
   "        </div>"].

Definition html_release (release : Group.t) : list string :=
  [q "    <div class='release-date'>";
   "        <h2>" ++ Group.date_str release ++ "</h2>"]
  ++ flat_map html_item (Group.items release)
  ++ ["    </div>"].

Definition no_results : list string :=
  [q "    <div class='no-results'>";
   "        <h2>No Release Notes Found</h2>";
   "        <p>No release notes were found in the specified time range.</p>";
   "        <p>This could be due to:</p>";
   q "        <ul style='text-align: left; display: inline-block;'>";
   "            <li>No releases in the past " ++ str (months self) ++ " months</li>";
   "            <li>Different page structure than expected</li>";
   "            <li>Content loaded dynamically via JavaScript</li>";
   "        </ul>";
   "    </div>"].

Definition display_name (category : string) : string :=
  if String.eqb category "ga" then "GA (Generally Available)"
  else if String.eqb category "public-preview" then "Public Preview"
  else if String.eqb category "breaking" then "Breaking"
  else title (replace "-" " " category).

(** [[r['date'] for r in releases if r['date']]], as time stamps. *)
Definition dates (releases : list Group.t) : list Z :=
  flat_map (fun r => match Group.date r with
                     | Some d => [timestamp d]
                     | None => []
                     end) releases.

(** [min] and [max] of a sequence: [ValueError] on the empty one. *)
Definition extremum (pick : Z -> Z -> Z) (ts : list Z) : outcome Z :=
  match ts with
  | [] => Raise ValueError
  | t :: ts' => Return (fold_left pick ts' t)
  end.

(** Line 721-728: the date range of the releases, or the search range. *)
Definition html_range (releases : list Group.t) : outcome (list string) :=
  match releases with
  | _ :: _ =>
      match extremum Z.min (dates releases), extremum Z.max (dates releases) with
      | Return date_range_start, Return date_range_end =>
          Return ["        <p><strong>Date Range:</strong> "
                    ++ strftime date_range_start "%Y-%m-%d" ++ " to "
                    ++ strftime date_range_end "%Y-%m-%d" ++ "</p>"]
      | Raise e, _ => Raise e
      | _, Raise e => Raise e
      end
  | [] =>
      let cutoff := strftime (cutoff_date self) "%Y-%m-%d" in
      let today := strftime (now 1) "%Y-%m-%d" in
      Return ["        <p><strong>Search Range:</strong> " ++ cutoff ++ " to "
                ++ today ++ "</p>"]
  end.

Definition html_categories (releases : list Group.t) : list string :=
  match releases with
  | [] => []
  | _ :: _ =>
      match category_counts releases with
      | [] => []
      | counts =>
          ["        <h3>Items by Category</h3>"; "        <ul>"]
          ++ map (fun cc => "            <li><strong>" ++ display_name (fst cc)
                              ++ ":</strong> " ++ str (snd cc) ++ "</li>")
                 (by_count counts)
          ++ ["        </ul>"]
      end
  end.

Definition html_head : list string :=
  ["<!DOCTYPE html>";
   q "<html lang='en'>";
   "<head>";
   q "    <meta charset='UTF-8'>";
   q "    <meta name='viewport' content='width=device-width, initial-scale=1.0'>";
   "    <title>Release Notes Summary</title>";
   "    <style>"]
  ++ stylesheet
  ++ ["    </style>";
      "</head>";
      "<body>";
      q "    <div class='header'>";
      "        <h1>Release Notes Summary</h1>";
      q "        <div class='meta'>";
      "            <p>Generated: " ++ strftime (now 0) "%Y-%m-%d %H:%M:%S" ++ "</p>";
      q "            <p>Source: <a href='" ++ url self
        ++ q "' style='color: white; text-decoration: underline;'>" ++ url self
        ++ "</a></p>";
      "            <p>Time range: Last " ++ str (months self) ++ " months</p>";
      "        </div>";
      "    </div>"].

Definition html_foot : list string :=
  ["    </div>";
   q "    <div class='source-link'>";
   q "        <a href='" ++ url self ++ q "' target='_blank'>View Full Release Notes</a>";
   "    </div>";
   "</body>";
   "</html>"].

Definition _format_html (releases : list Group.t) : outcome string :=
  let releases := newest_first releases in
  let body :=
    match releases with
    | [] => no_results
    | _ :: _ => flat_map html_release releases
    end in
  let stats :=
    [q "    <div class='stats'>";
     "        <h2>Summary Statistics</h2>";
     "        <p><strong>Total Releases:</strong> " ++ str (count releases) ++ "</p>";
     "        <p><strong>Total Items:</strong> " ++ str (total_items releases) ++ "</p>"] in
  match html_range releases with
  | Return range =>
      Return (join nl (html_head ++ body ++ stats ++ range
                         ++ html_categories releases ++ html_foot))
  | Raise e => Raise e
  end.

Definition format_output (releases : list Group.t) (format_type : string)
  : outcome string :=
  if String.eqb format_type "json" then Return (_format_json releases)
  else if String.eqb format_type "markdown" then Return (_format_markdown releases)
  else if String.eqb format_type "html" then _format_html releases
  else Return (_format_text releases).

End Renderers.

(** ** [main] *)

(** The parsed command line. *)
Record Args : Type := mkArgs {
  arg_url : string;
  arg_months : Z;
  arg_output : string;
  arg_file : option string;
  arg_verbose : bool
}.

(** What the run meets outside the program: whether the two packages import,
    the clock when the scraper is built, the page, and what opening and
    writing the output file gives. *)
Record World : Type := mkWorld {
  packages_installed : bool;
  clock : Z;
  page : outcome ContentArea;
  write : outcome unit
}.

(** How the process ends: [sys.exit(status)] or the end of [main] (status 0),
    or an exception nobody caught (status 1). *)
Inductive termination : Type :=
| Exit (status : Z)
| Uncaught (e : exn).

Definition exit_status (t : termination) : Z :=
  match t with
  | Exit status => status
  | Uncaught _ => 1%Z
  end.

Record Run : Type := mkRun {
  printed : option string;     (* the document printed on stdout *)
  saved : option string;       (* the document written to the file *)
  ended : termination
}.

Section Main.

Variable soup_text : string -> string.
Variable strftime : Z -> string -> string.
Variable isoformat : Z -> string.
Variable json_dumps : json -> string.
Variable now : nat -> Z.
Variable stylesheet : list string.

Definition main (args : Args) (world : World) : Run :=
  if negb (packages_installed world) then mkRun None None (Exit 1)
  else
    match __init__ (clock world) (arg_url args) (arg_months args) with
    | Raise e => mkRun None None (Uncaught e)
    | Return scraper =>
        match scrape (page world) scraper with
        | (_, _, Raise e) => mkRun None None (Uncaught e)
        | (scraper, _, Return releases) =>
            match format_output soup_text strftime isoformat json_dumps now
                                stylesheet scraper releases (arg_output args) with
            | Raise e => mkRun None None (Uncaught e)
            | Return output =>
                if text_given (arg_file args) then
                  match write world with
                  | Return _ => mkRun None (Some output) (Exit 0)
                  | Raise IOError => mkRun None None (Exit 1)
                  | Raise e => mkRun None None (Uncaught e)
                  end
                else mkRun (Some output) None (Exit 0)
            end
        end
    end.

End Main.

(** ** The specification's vocabulary *)

(** The five calendar formats of the date recognizer, by name. *)
Inductive calendar_format : Type :=
| FullMonthName
| AbbreviatedMonthName
| Iso
| UsSlash
| DayFirstSlash.

Definition format_string (f : calendar_format) : string :=
  match f with
  | FullMonthName => "%B %d, %Y"
  | AbbreviatedMonthName => "%b %d, %Y"
  | Iso => "%Y-%m-%d"
  | UsSlash => "%m/%d/%Y"
  | DayFirstSlash => "%d/%m/%Y"
  end.

(** The keyword cascade as the specification words it: a table of rules in
    priority order, the first rule with a term in the text wins. *)
Definition keyword_rules : list (string * list string) :=
  [("security", ["security"; "vulnerability"; "cve"; "patch"]);
   ("breaking", ["breaking change"; "breaking change:"; "migration required";
                 "major version update"]);
   ("public-preview", ["(preview)"; "public preview"; "in preview"; "preview)";
                       "early access"; "beta"]);
   ("ga", ["generally available"; "general availability"; "(ga)"; "is now ga";
           "is in ga"; "in general availability"]);
   ("deprecated", ["deprecated"; "deprecation"; "obsolete"; "removed";
                   "discontinued"]);
   ("fixed", ["fixed"; "fix:"; "resolved"; "bug"]);
   ("issue", ["issue"; "known issue"; "workaround"]);
   ("change", ["changed:"; "migration required"; "version updates"]);
   ("announcement", ["announced"; "announcement"; "introducing"]);
   ("libraries", ["library"; "sdk"; "api"; "client library"; "framework"])].

Fixpoint first_hit (rules : list (string * list string)) (text_lower : string)
  : string :=
  match rules with
  | [] => "update"
  | (label, terms) :: rules' =>
      if any_in terms text_lower then label else first_hit rules' text_lower
  end.

(** The structural hint of an element: the category its classes decide, if
    they decide one. *)
Definition role_markers : list (string * string) :=
  [("release-changed", "change"); ("release-announcement", "announcement");
   ("release-breaking", "breaking"); ("release-issue", "issue")].

Fixpoint first_marker (markers : list (string * string)) (class_str : string)
  : option string :=
  match markers with
  | [] => None
  | (marker, label) :: markers' =>
      if contains marker class_str then Some label
      else first_marker markers' class_str
  end.

Definition feature_role (e : Element) : bool :=
  contains "release-feature" (class_str e).

Definition hint_category (element : option Element) : option string :=
  match element with
  | None => None
  | Some e =>
      if feature_role e then
        Some (if contains "(Preview)" (get_text e) || contains "(preview)" (get_text e)
              then "public-preview" else "ga")
      else first_marker role_markers (class_str e)
  end.

(** The text the keyword cascade reads: the one given, or else the element's. *)
Definition effective_text (element : option Element) (text : option string)
  : string :=
  match text, element with
  | Some t, Some e => if truthy t then t else get_text e
  | Some t, None => t
  | None, Some e => get_text e
  | None, None => ""
  end.

(** The branches of the sibling walk. *)
Inductive branch : Type :=
| RoleMarker
| ListExpansion
| Block.

Definition branch_of (sibling : Element) : option branch :=
  if has_role_class sibling then Some RoleMarker
  else if mem (name sibling) ["ul"; "ol"] then Some ListExpansion
  else if mem (name sibling) ["p"; "li"; "div"] then Some Block
  else None.

Definition branch_items (b : branch) (sibling : Element) : list Item.t :=
  match b with
  | RoleMarker => role_branch sibling
  | ListExpansion => list_branch sibling
  | Block => block_branch sibling
  end.

(** The raw payloads of the items of a collection, in order. *)
Definition payloads (rs : list Group.t) : list string :=
  flat_map (fun g => map Item.text (Group.items g)) rs.

(** A release has a date, on or after the cutoff. *)
Definition dated_from (cutoff : Z) (g : Group.t) : Prop :=
  exists d, Group.date g = Some d /\ (cutoff <= timestamp d)%Z.

(** [keeps I m]: the method body [m] logs nothing and maintains the invariant
    [I] of the object, also when it raises. *)
Definition keeps (I : Scraper -> Prop) {A : Type} (m : M A) : Prop :=
  forall self self' log r,
    I self -> m self = (self', log, r) -> I self' /\ log = []%list.

(** An invariant that does not read [self.releases]. *)
Definition append_stable (I : Scraper -> Prop) : Prop :=
  forall self rs, I self -> I (set_releases self rs).

(** [calm m]: [m] returns, and logs nothing. *)
Definition calm {A : Type} (m : M A) : Prop :=
  forall self, exists self' a, m self = (self', []%list, Return a).

(** The labels [_categorize_item] can return. *)
Definition categories : list string :=
  ["security"; "breaking"; "public-preview"; "ga"; "deprecated"; "fixed";
   "issue"; "change"; "announcement"; "libraries"; "update"].

(** A group as the extractors build it for the page at [u]: it carries that
    URL, it has an item, its date is the one its date string parses to, and
    every item has a label of the closed set. *)
Definition well_formed (u : string) (g : Group.t) : Prop :=
  Group.url g = u
  /\ Group.items g <> []
  /\ (exists d, Group.date g = Some d
                /\ _parse_date (Group.date_str g) = Return (Some d))
  /\ Forall (fun item => In (Item.category item) categories) (Group.items g).

(** A group as the unstructured extractor builds it: well formed, with one
    item, dated in the window. *)
Definition fallback_group (u : string) (cutoff : Z) (g : Group.t) : Prop :=
  well_formed u g
  /\ (exists item, Group.items g = [item])
  /\ in_window cutoff g = true.

(** [triple I m Q]: from an object satisfying [I], the method body [m] leaves
    an object satisfying [I], whether it returns or raises, and a value it
    returns satisfies [Q]. *)
Definition triple (I : Scraper -> Prop) {A : Type} (m : M A) (Q : A -> Prop)
  : Prop :=
  forall self self' log r,
    I self -> m self = (self', log, r) ->
    I self' /\ forall a, r = Return a -> Q a.

(** The sum of the counts of a category table. *)
Definition counted (counts : list (string * Z)) : Z :=
  fold_right (fun cc n => (snd cc + n)%Z) 0%Z counts.

(** The categories of the items of a collection, in order. *)
Definition labels (rs : list Group.t) : list string :=
  flat_map (fun g => map Item.category (Group.items g)) rs.

(** A string of blanks only. *)
Definition blank (s : string) : Prop :=
  Forall (fun c => isspace c = true) (list_ascii_of_string s).

(** An invariant that survives the append of a group as the structured
    extractor builds it. *)
Definition admits_structured (I : Scraper -> Prop) : Prop :=
  forall self d date_str items,
    I self ->
    _parse_date date_str = Return (Some d) ->
    items <> [] ->
    Forall (fun item => In (Item.category item) categories) items ->
    I (set_releases self
         (releases self ++ [Group.mk (Some d) date_str items (url self)])%list).

(** An invariant that fixes the cutoff and survives the append of a group as
    the unstructured extractor builds it. *)
Definition admits_fallback (cutoff : Z) (I : Scraper -> Prop) : Prop :=
  (forall self, I self -> cutoff_date self = cutoff)
  /\ forall self e d date_str,
       I self ->
       _parse_date date_str = Return (Some d) ->
       (cutoff <= timestamp d)%Z ->
       I (set_releases self
            (releases self
             ++ [Group.mk (Some d) date_str [make_item e (get_text e)]
                   (url self)])%list).

(** The configuration of a scraper: everything but its releases. *)
Definition same_configuration (a b : Scraper) : Prop :=
  url a = url b /\ months a = months b /\ cutoff_date a = cutoff_date b
  /\ platform a = platform b.

(** A date string that parses to a date on or after the cutoff. *)
Definition in_window_date (cutoff : Z) (date_match : string) : bool :=
  match _parse_date date_match with
  | Return (Some d) => (cutoff <=? timestamp d)%Z
  | _ => false
  end.

(** A text node whose stripped text is not empty and holds, for one of the
    date patterns, a match that is a date in the window. *)
Definition node_hits (selectors : Selectors) (cutoff : Z) (node : TextNode)
  : bool :=
  let text := strip (node_text node) in
  truthy text
  && existsb (fun pattern => existsb (in_window_date cutoff) (findall pattern text))
       (date_patterns selectors).

(** The text nodes of the page as the interpreter gives them to the second
    pass: [text.strip()] is a plain [str], and [text.parent] raises
    [AttributeError]. *)
Definition plain_str_nodes (content_area : ContentArea) : Prop :=
  Forall (fun node => stripped_parent node = Raise AttributeError)
    (text_nodes content_area).

(** The first pass of the unstructured extractor, over the release [div]s. *)
Definition first_pass (content_area : ContentArea) (selectors : Selectors)
  : M unit :=
  for_each (role_divs content_area) (marked_div selectors).

(** [category_counts.get(category, 0)] *)
Fixpoint get_count (counts : list (string * Z)) (category : string) : Z :=
  match counts with
  | [] => 0%Z
  | (c, n) :: counts' =>
      if String.eqb c category then n else get_count counts' category
  end.

(** The number of items of a collection that carry a label. *)
Definition occurrences (rs : list Group.t) (category : string) : Z :=
  Z.of_nat (count_occ string_dec (labels rs) category).

(** [j[key]] of a JSON object, and the elements of a JSON array. *)
Definition member (key : string) (j : json) : json :=
  match j with
  | JObj members =>
      match find (fun kv => String.eqb (fst kv) key) members with
      | Some kv => snd kv
      | None => JNull
      end
  | _ => JNull
  end.

Definition elements (j : json) : list json :=
  match j with
  | JArr l => l
  | _ => []
  end.

(** The number of entries of the ['items'] arrays of a list of releases. *)
Definition items_listed (entries : list json) : nat :=
  List.length (flat_map (fun entry => elements (member "items" entry)) entries).

(** ** Sample inputs *)

Module Sample.

(** [<div class="release-changed">Patched a security hole in the (Preview) API</div>] *)
Definition changed_div : Element :=
  mkElement "div" ["release-changed"]
    "<div class='release-changed'>Patched a security hole in the (Preview) API</div>"
    "Patched a security hole in the (Preview) API" [] [].

(** [<div class="release-feature">Cloud Run jobs (PREVIEW) are here</div>] *)
Definition feature_upper : Element :=
  mkElement "div" ["release-feature"]
    "<div class='release-feature'>Cloud Run jobs (PREVIEW) are here</div>"
    "Cloud Run jobs (PREVIEW) are here" [] [].

(** A page with one dated header, a paragraph and a list below it. *)
Definition paragraph : Element :=
  mkElement "p" [] "<p>Security patch released (CVE-1234)</p>"
    "Security patch released (CVE-1234)" [] [].

Definition bullet : Element :=
  mkElement "li" [] "<li>Bug fixes</li>" "Bug fixes" [] [].

(** [<ul><li>Bug fixes</li><li>Bug fixes</li></ul>] *)
Definition bullets : Element :=
  mkElement "ul" [] "<ul><li>Bug fixes</li><li>Bug fixes</li></ul>"
    "Bug fixesBug fixes" [] [bullet; bullet].

Definition dated_page : ContentArea :=
  mkContentArea [mkHeader "h2" "March 1, 2024" [paragraph; bullets]] [] [].

(** Noon of 2024-06-01. *)
Definition noon : Z := timestamp (mkdatetime 2024 6 1 (12 * 3600 * 1000000)).

Definition release_notes : string :=
  "https://cloud.google.com/run/docs/release-notes".

(** The scraper [__init__] builds at [noon] for 12 months. *)
Definition scraper : Scraper :=
  mkScraper release_notes 12 (noon - 360 * day_us) [] "google_cloud".

(** What the body of [scrape] gives on that page. *)
Definition scraped : Scraper * list call * outcome (list Group.t) :=
  Eval vm_compute in scrape_body (Return dated_page) scraper.

Definition kept : list Group.t :=
  match snd scraped with
  | Return rs => rs
  | Raise _ => []
  end.

(** Two release [div]s with the same text, the second with one more blank in
    its tag, and the dates next to them. *)
Definition feature_a : Element :=
  mkElement "div" ["release-feature"]
    "<div class='release-feature'>Cloud Run now supports sidecars</div>"
    "Cloud Run now supports sidecars" [] [].

Definition feature_b : Element :=
  mkElement "div" ["release-feature"]
    "<div  class='release-feature'>Cloud Run now supports sidecars</div>"
    "Cloud Run now supports sidecars" [] [].

Definition undated_page : ContentArea :=
  mkContentArea []
    [mkRoleDiv feature_a (Some "May 1, 2024") None None;
     mkRoleDiv feature_b None None (Some "2024-05-02");
     mkRoleDiv feature_a (Some "May 1, 2024") None None]
    [mkTextNode " no date here " (Raise AttributeError)].

(** The scraper after one group with the payload of [feature_a]. *)
Definition scraper_with_a : Scraper :=
  set_releases scraper
    [Group.mk (Some (midnight 2024 5 1)) "May 1, 2024"
       [make_item feature_a (get_text feature_a)] release_notes].

(** [<div class="release-feature">New</div>]: a release class, three
    characters of text. *)
Definition short_feature : Element :=
  mkElement "div" ["release-feature"] "<div class='release-feature'>New</div>"
    "New" [] [].

(** [<ul class="release-issue"><li>Known issue with jobs</li></ul>] *)
Definition marked_list : Element :=
  mkElement "ul" ["release-issue"]
    "<ul class='release-issue'><li>Known issue with jobs</li></ul>"
    "Known issue with jobs" []
    [mkElement "li" [] "<li>Known issue with jobs</li>" "Known issue with jobs" [] []].

(** [<table><tr><td>Region list updated</td></tr></table>] *)
Definition table : Element :=
  mkElement "table" [] "<table><tr><td>Region list updated</td></tr></table>"
    "Region list updated" [] [].

(** A run whose fetch fails, printed on stdout as text; the same with the
    output file not writable. *)
Definition to_stdout : Args := mkArgs release_notes 12 "text" None false.
Definition to_file : Args := mkArgs release_notes 12 "html" (Some "notes.html") false.

Definition fetch_fails : World :=
  mkWorld true noon (Raise RequestException) (Return tt).

Definition disk_full : World :=
  mkWorld true noon (Return dated_page) (Raise IOError).

(** A release [div] with its date before it, and the text node of that date. *)
Definition dated_div_page : ContentArea :=
  mkContentArea []
    [mkRoleDiv feature_a (Some "May 1, 2024") None None]
    [mkTextNode " May 1, 2024 " (Raise AttributeError)].

(** A group without a date, as a caller of the renderers could pass. *)
Definition undated_group : Group.t :=
  Group.mk None "someday" [make_item paragraph (get_text paragraph)] release_notes.

End Sample.

(** * Properties *)

Local Open Scope list_scope.

(** ** The date recognizer *)

Lemma strptime_raises_ValueError (data_string format : string) (e : exn) :
  strptime data_string format = Raise e -> e = ValueError.
Proof.
  unfold strptime.
  destruct (format_regex _) as [r|]; [|congruence].
  destruct (re_match _ _ _) as [[caps rest]|]; [|congruence].
  destruct rest; [|congruence].
  destruct (check_date_fields _ _ _); congruence.
Qed.

(** The loop over the formats returns, and what it returns comes from the
    first format that parses. *)
Lemma try_formats_first (s : string) (fmts : list string) :
  exists r, try_formats s fmts = Return r /\
    match r with
    | Some d =>
        exists i fmt, nth_error fmts i = Some fmt /\ strptime s fmt = Return d /\
          forall j fj, j < i -> nth_error fmts j = Some fj ->
                       strptime s fj = Raise ValueError
    | None => forall fmt, In fmt fmts -> strptime s fmt = Raise ValueError
    end.
Proof.
  induction fmts as [|fmt fmts IH]; simpl.
  - exists None. split; [reflexivity | intros fmt []].
  - destruct (strptime s fmt) as [d|e] eqn:E.
    + exists (Some d). split; [reflexivity|].
      exists 0, fmt. repeat split; auto. intros j fj Hj. inversion Hj.
    + pose proof (strptime_raises_ValueError _ _ _ E) as ->.
      destruct IH as [r [Hr Hspec]]. exists r. split; [exact Hr|].
      destruct r as [d|].
      * destruct Hspec as [i [f [Hn [Hs Hbefore]]]].
        exists (S i), f. repeat split; auto.
        intros [|j] fj Hj Hnth; simpl in Hnth.
        -- congruence.
        -- apply (Hbefore j); [apply Nat.succ_lt_mono; exact Hj | exact Hnth].
      * intros f [<-|Hin]; auto.
Qed.

(** C1. [_parse_date] tries the calendar formats in the order full month
    name, abbreviated month name, ISO, US month/day/year, day/month/year; it
    returns the date of the first format that parses and [None] when none
    does, and it never raises.  ["13/02/2024"] fails the US format and parses
    day-first to 2024-02-13; ["01/15/2024"] parses in the US format to
    2024-01-15. *)
Theorem parse_date_first_format_wins :
  formats = map format_string
              [FullMonthName; AbbreviatedMonthName; Iso; UsSlash; DayFirstSlash]
  /\ (forall date_str : string,
        exists r, _parse_date date_str = Return r /\
          match r with
          | Some d =>
              exists i fmt,
                nth_error formats i = Some fmt /\
                strptime (strip date_str) fmt = Return d /\
                forall j fj, j < i -> nth_error formats j = Some fj ->
                             strptime (strip date_str) fj = Raise ValueError
          | None =>
              forall fmt, In fmt formats ->
                          strptime (strip date_str) fmt = Raise ValueError
          end)
  /\ strptime "13/02/2024" (format_string UsSlash) = Raise ValueError
  /\ strptime "13/02/2024" (format_string DayFirstSlash) = Return (midnight 2024 2 13)
  /\ _parse_date "13/02/2024" = Return (Some (midnight 2024 2 13))
  /\ strptime "01/15/2024" (format_string UsSlash) = Return (midnight 2024 1 15)
  /\ _parse_date "01/15/2024" = Return (Some (midnight 2024 1 15)).
Proof.
  split; [reflexivity|].
  split; [intro date_str; apply try_formats_first|].
  repeat split; vm_compute; reflexivity.
Qed.

(** ** The categorizer *)

Lemma keyword_cascade_first_hit (text_lower : string) :
  keyword_cascade text_lower = first_hit keyword_rules text_lower.
Proof. reflexivity. Qed.

Lemma text_analysis_cascade (element : option Element) (text : option string) :
  text_analysis element text =
    if truthy (effective_text element text)
    then first_hit keyword_rules (lower (effective_text element text))
    else "update".
Proof.
  unfold text_analysis, effective_text, text_given.
  destruct element as [e|], text as [t|]; simpl;
    try destruct (truthy t) eqn:Ht; simpl; try rewrite Ht;
    try rewrite keyword_cascade_first_hit; try reflexivity;
    destruct (truthy (get_text e)); reflexivity.
Qed.

Lemma categorize_by_hint (element : option Element) (c : string) :
  hint_category element = Some c ->
  forall text, _categorize_item element text = c.
Proof.
  destruct element as [e|]; simpl; [|discriminate].
  unfold feature_role. intros H text.
  destruct (contains "release-feature" (class_str e)).
  - congruence.
  - simpl in H.
    destruct (contains "release-changed" (class_str e)); [congruence|].
    destruct (contains "release-announcement" (class_str e)); [congruence|].
    destruct (contains "release-breaking" (class_str e)); [congruence|].
    destruct (contains "release-issue" (class_str e)); [congruence|].
    discriminate.
Qed.

Lemma categorize_without_hint (element : option Element) (text : option string) :
  hint_category element = None ->
  _categorize_item element text = text_analysis element text.
Proof.
  destruct element as [e|]; simpl; [|reflexivity].
  unfold feature_role.
  destruct (contains "release-feature" (class_str e)); [discriminate|].
  simpl.
  destruct (contains "release-changed" (class_str e)); [discriminate|].
  destruct (contains "release-announcement" (class_str e)); [discriminate|].
  destruct (contains "release-breaking" (class_str e)); [discriminate|].
  destruct (contains "release-issue" (class_str e)); [discriminate|].
  reflexivity.
Qed.

Lemma first_hit_head (label : string) (terms : list string)
  (rules : list (string * list string)) (text_lower : string) :
  any_in terms text_lower = true ->
  first_hit ((label, terms) :: rules) text_lower = label.
Proof. intro H. simpl. rewrite H. reflexivity. Qed.

Lemma lower_empty (t : string) : truthy t = false -> lower t = "".
Proof. destruct t; [reflexivity | discriminate]. Qed.

(** C2. [_categorize_item] is a function of the hint and the text; a class
    of the element that names a role decides the category whatever the text
    says; otherwise the category is that of the first keyword rule, in the
    order security, breaking, preview, ga, deprecated, fixed, issue, change,
    announcement, libraries, with a term in the lower-cased text, and
    ['update'] when no rule has one.  So, in the cascade, a text with a
    security term and a preview term is ['security']. *)
Theorem categorize_priority_order :
  map fst keyword_rules =
    ["security"; "breaking"; "public-preview"; "ga"; "deprecated"; "fixed";
     "issue"; "change"; "announcement"; "libraries"]
  /\ forall (element : option Element) (text : option string),
       (forall c1 c2, c1 = _categorize_item element text ->
                      c2 = _categorize_item element text -> c1 = c2)
       /\ (forall c, hint_category element = Some c ->
                     forall text', _categorize_item element text' = c)
       /\ (hint_category element = None ->
           _categorize_item element text =
             if truthy (effective_text element text)
             then first_hit keyword_rules (lower (effective_text element text))
             else "update")
       /\ (hint_category element = None ->
           forall security_term preview_term,
             In security_term ["security"; "vulnerability"; "cve"; "patch"] ->
             In preview_term ["(preview)"; "public preview"; "in preview";
                              "preview)"; "early access"; "beta"] ->
             contains security_term (lower (effective_text element text)) = true ->
             contains preview_term (lower (effective_text element text)) = true ->
             _categorize_item element text = "security").
Proof.
  split; [reflexivity|].
  intros element text. split; [congruence|].
  split; [apply categorize_by_hint|].
  split.
  - intro H. rewrite (categorize_without_hint _ _ H). apply text_analysis_cascade.
  - intros H security_term preview_term Hs _ Hc _.
    rewrite (categorize_without_hint _ _ H), text_analysis_cascade.
    destruct (truthy (effective_text element text)) eqn:Ht.
    + assert (Hany : any_in ["security"; "vulnerability"; "cve"; "patch"]
                       (lower (effective_text element text)) = true).
      { apply existsb_exists. exists security_term. split; assumption. }
      unfold keyword_rules. apply first_hit_head. exact Hany.
    + rewrite (lower_empty _ Ht) in Hc.
      simpl in Hs. destruct Hs as [<-|[<-|[<-|[<-|[]]]]]; discriminate.
Qed.

Lemma categorize_priority_order_witness :
  _categorize_item None (Some "Security patch for the (Preview) API") = "security"
  /\ _categorize_item (Some Sample.changed_div)
       (Some "Patched a security hole in the (Preview) API") = "change".
Proof.
  destruct categorize_priority_order as [_ H].
  split.
  - destruct (H None (Some "Security patch for the (Preview) API"))
      as [_ [_ [_ Hsec]]].
    apply (Hsec eq_refl "security" "(preview)").
    + simpl; auto.
    + simpl; auto.
    + reflexivity.
    + reflexivity.
  - destruct (H (Some Sample.changed_div) None) as [_ [Hhint _]].
    apply Hhint. reflexivity.
Defined.

(** C7. On an element with the feature role whose text carries the marker as
    ["(PREVIEW)"], the lower-cased text does contain ["(preview)"], and
    [_categorize_item] answers ['ga']: only the spellings ["(Preview)"] and
    ["(preview)"] are recognised. *)
Theorem feature_marker_upper_case_is_ga :
  feature_role Sample.feature_upper = true
  /\ contains "(preview)" (lower (get_text Sample.feature_upper)) = true
  /\ _categorize_item (Some Sample.feature_upper)
       (Some (get_text Sample.feature_upper)) = "ga".
Proof. repeat split; reflexivity. Qed.

(** What the feature role does decide: ['public-preview'] exactly when the
    text contains ["(Preview)"] or ["(preview)"], ['ga'] otherwise. *)
Lemma feature_role_category (e : Element) (text : option string) :
  feature_role e = true ->
  _categorize_item (Some e) text =
    if contains "(Preview)" (get_text e) || contains "(preview)" (get_text e)
    then "public-preview" else "ga".
Proof.
  intro H. apply categorize_by_hint. simpl. rewrite H. reflexivity.
Qed.

(** ** Reasoning about method bodies *)

Lemma parse_date_returns (date_str : string) :
  exists r, _parse_date date_str = Return r.
Proof.
  destruct (try_formats_first (strip date_str) formats) as [r [H _]].
  exists r. exact H.
Qed.

Lemma bind_inv {A B : Type} (m : M A) (k : A -> M B) self self' log r :
  bind m k self = (self', log, r) ->
  (exists s1 l1 a l2,
      m self = (s1, l1, Return a) /\ k a s1 = (self', l2, r) /\ log = l1 ++ l2)
  \/ (exists e, m self = (self', log, Raise e) /\ r = Raise e).
Proof.
  unfold bind. destruct (m self) as [[s1 l1] [a|e]].
  - destruct (k a s1) as [[s2 l2] r2] eqn:E. intro H. inversion H; subst.
    left. exists s1, l1, a, l2. auto.
  - intro H. inversion H; subst. right. exists e. auto.
Qed.

Section Frame.

Variable I : Scraper -> Prop.

Local Abbreviation keeps := (keeps I).

Lemma keeps_ret {A : Type} (a : A) : keeps (ret a).
Proof. intros self self' log r HI H. inversion H; subst. auto. Qed.

Lemma keeps_lift {A : Type} (o : outcome A) : keeps (lift o).
Proof. intros self self' log r HI H. inversion H; subst. auto. Qed.

Lemma keeps_get : keeps get.
Proof. intros self self' log r HI H. inversion H; subst. auto. Qed.

Lemma keeps_bind {A B : Type} (m : M A) (k : A -> M B) :
  keeps m -> (forall a, keeps (k a)) -> keeps (bind m k).
Proof.
  intros Hm Hk self self' log r HI H.
  destruct (bind_inv _ _ _ _ _ _ H) as [[s1 [l1 [a [l2 [E1 [E2 ->]]]]]]|[e [E1 _]]].
  - destruct (Hm _ _ _ _ HI E1) as [HI1 ->].
    destruct (Hk a _ _ _ _ HI1 E2) as [HI2 ->]. auto.
  - exact (Hm _ _ _ _ HI E1).
Qed.

Lemma keeps_for_each {A : Type} (xs : list A) (body : A -> M unit) :
  (forall x, keeps (body x)) -> keeps (for_each xs body).
Proof.
  intro Hbody. induction xs as [|x xs IH]; simpl.
  - apply keeps_ret.
  - apply keeps_bind; [apply Hbody | intros _; exact IH].
Qed.

Lemma keeps_date_near (patterns : list regex) (elems : list (option string)) :
  keeps (date_near patterns elems).
Proof.
  induction elems as [|[text|] elems IH]; simpl.
  - apply keeps_ret.
  - destruct (first_match patterns text); [|exact IH].
    apply keeps_bind; [apply keeps_lift|].
    intros [d|]; [apply keeps_ret | exact IH].
  - exact IH.
Qed.

(** The invariant survives the append of a one-item group whose payload the
    duplicate scan did not find. *)
Hypothesis append_fresh :
  forall self e d date_str,
    I self ->
    scan_releases (releases self) (markup e) false = false ->
    I (set_releases self
         (releases self
          ++ [Group.mk (Some d) date_str [make_item e (get_text e)] (url self)])).

Lemma keeps_emit (e : Element) (d : datetime) (date_str : string) :
  keeps (emit e d date_str).
Proof.
  unfold emit.
  destruct (truthy (get_text e) && (20 <? len (get_text e))%Z); [|apply keeps_ret].
  intros self self' log r HI H.
  unfold bind, get in H.
  destruct (scan_releases (releases self) (markup e) false) eqn:E; simpl in H.
  - inversion H; subst. auto.
  - unfold append_release in H. inversion H; subst. split; [|reflexivity].
    apply append_fresh; assumption.
Qed.

Lemma keeps_marked_div (selectors : Selectors) (d : RoleDiv) :
  keeps (marked_div selectors d).
Proof.
  unfold marked_div.
  apply keeps_bind; [apply keeps_date_near|]. intros found.
  apply keeps_bind; [apply keeps_get|]. intros self0.
  destruct found as [[date_found date_str]|]; [|apply keeps_ret].
  destruct (cutoff_date self0 <=? timestamp date_found)%Z;
    [apply keeps_emit | apply keeps_ret].
Qed.

Lemma keeps_dated_text (node : TextNode) (date_match : string) :
  keeps (dated_text node date_match).
Proof.
  unfold dated_text.
  apply keeps_bind; [apply keeps_lift|]. intros parsed_date.
  apply keeps_bind; [apply keeps_get|]. intros self0.
  destruct parsed_date as [d|]; [|apply keeps_ret].
  destruct (cutoff_date self0 <=? timestamp d)%Z; [|apply keeps_ret].
  apply keeps_bind; [apply keeps_lift|]. intros [p|]; [|apply keeps_ret].
  destruct (negb (mem (name p) ["script"; "style"]));
    [apply keeps_emit | apply keeps_ret].
Qed.

Lemma keeps_text_node (selectors : Selectors) (node : TextNode) :
  keeps (text_node selectors node).
Proof.
  unfold text_node.
  destruct (negb (truthy (strip (node_text node)))); [apply keeps_ret|].
  apply keeps_for_each. intro pattern.
  apply keeps_for_each. intro date_match. apply keeps_dated_text.
Qed.

(** The unstructured extractor logs its entry, and nothing else; it
    maintains the invariant, whether it returns or raises. *)
Lemma unstructured_frame (content_area : ContentArea) (selectors : Selectors)
  self self' log r :
  I self ->
  _parse_unstructured_releases content_area selectors self = (self', log, r) ->
  I self' /\ log = [UnstructuredExtractor].
Proof.
  intros HI H. unfold _parse_unstructured_releases in H.
  assert (Hin : keeps
            (for_each (role_divs content_area) (marked_div selectors) ;;;
             for_each (text_nodes content_area) (text_node selectors))).
  { apply keeps_bind; [apply keeps_for_each; intro; apply keeps_marked_div|].
    intros _. apply keeps_for_each; intro; apply keeps_text_node. }
  destruct (bind_inv _ _ _ _ _ _ H) as [[s1 [l1 [a [l2 [E1 [E2 ->]]]]]]|[e [E1 _]]].
  - inversion E1; subst.
    destruct (Hin _ _ _ _ HI E2) as [HI' ->]. auto.
  - inversion E1.
Qed.

End Frame.

Lemma keeps_append (I : Scraper -> Prop) (g : Group.t) :
  append_stable I -> keeps I (append_release g).
Proof.
  intros HI self self' log r Hself H. inversion H; subst. split; [|reflexivity].
  apply HI. exact Hself.
Qed.

Lemma keeps_header_patterns (I : Scraper -> Prop) (selectors : Selectors)
  (header : Header) (patterns : list regex) :
  append_stable I -> keeps I (header_patterns selectors header patterns).
Proof.
  intro HI. induction patterns as [|pattern patterns IH]; simpl.
  - apply keeps_ret.
  - destruct (search_group1 pattern (header_text header)) as [date_str|]; [|exact IH].
    apply keeps_bind; [apply keeps_lift|]. intros [d|]; [|exact IH].
    destruct (walk selectors (next_siblings header) []); [apply keeps_ret|].
    apply keeps_bind; [apply keeps_get|]. intros self0.
    apply keeps_append. exact HI.
Qed.

Lemma calm_ret {A : Type} (a : A) : calm (ret a).
Proof. intro self. exists self, a. reflexivity. Qed.

Lemma calm_get : calm get.
Proof. intro self. exists self, self. reflexivity. Qed.

Lemma calm_append (g : Group.t) : calm (append_release g).
Proof. intro self. eexists _, tt. reflexivity. Qed.

Lemma calm_parse_date (date_str : string) : calm (lift (_parse_date date_str)).
Proof.
  intro self. destruct (parse_date_returns date_str) as [r Hr].
  exists self, r. unfold lift. rewrite Hr. reflexivity.
Qed.

Lemma calm_bind {A B : Type} (m : M A) (k : A -> M B) :
  calm m -> (forall a, calm (k a)) -> calm (bind m k).
Proof.
  intros Hm Hk self. destruct (Hm self) as [s1 [a E1]].
  destruct (Hk a s1) as [s2 [b E2]].
  exists s2, b. unfold bind. rewrite E1, E2. reflexivity.
Qed.

Lemma calm_for_each {A : Type} (xs : list A) (body : A -> M unit) :
  (forall x, calm (body x)) -> calm (for_each xs body).
Proof.
  intro Hbody. induction xs as [|x xs IH]; simpl.
  - apply calm_ret.
  - apply calm_bind; [apply Hbody | intros _; exact IH].
Qed.

Lemma calm_header_patterns (selectors : Selectors) (header : Header)
  (patterns : list regex) :
  calm (header_patterns selectors header patterns).
Proof.
  induction patterns as [|pattern patterns IH]; simpl.
  - apply calm_ret.
  - destruct (search_group1 pattern (header_text header)) as [date_str|]; [|exact IH].
    apply calm_bind; [apply calm_parse_date|]. intros [d|]; [|exact IH].
    destruct (walk selectors (next_siblings header) []); [apply calm_ret|].
    apply calm_bind; [apply calm_get|]. intros self0. apply calm_append.
Qed.

(** The structured extractor returns; it logs its entry and nothing else, and
    maintains every invariant that does not read [self.releases]. *)
Lemma structured_run (I : Scraper -> Prop) (content_area : ContentArea)
  (selectors : Selectors) (self : Scraper) :
  append_stable I -> I self ->
  exists self',
    _parse_structured_releases content_area selectors self
      = (self', [StructuredExtractor], Return tt)
    /\ I self'.
Proof.
  intros HI Hself.
  pose (inner := for_each (date_headers selectors) (fun header_tag =>
          for_each (find_all content_area header_tag) (fun header =>
            header_patterns selectors header (date_patterns selectors)))).
  assert (Hcalm : calm inner).
  { apply calm_for_each. intro. apply calm_for_each. intro.
    apply calm_header_patterns. }
  assert (Hkeeps : keeps I inner).
  { apply keeps_for_each. intro. apply keeps_for_each. intro.
    apply keeps_header_patterns. exact HI. }
  destruct (Hcalm self) as [self' [[] E]].
  exists self'. split.
  - unfold _parse_structured_releases, bind, enter. fold inner. rewrite E.
    reflexivity.
  - exact (proj1 (Hkeeps _ _ _ _ Hself E)).
Qed.

Lemma scrape_handler_returns (e : exn) (self : Scraper) :
  scrape_handler e self = (self, [], Return []).
Proof. destruct e; reflexivity. Qed.

(** ** Fallback gating *)

(** A run of [scrape] on a fetched page: the structured extractor returns;
    then either it left no release and the unstructured extractor runs from
    there, or it left one and the run goes on to the filter. *)
Lemma scrape_cases (content_area : ContentArea) (self : Scraper) :
  exists structured_state,
    _parse_structured_releases content_area
        (PLATFORM_SELECTORS (platform self)) self
      = (structured_state, [StructuredExtractor], Return tt)
    /\ forall self' log r,
         scrape (Return content_area) self = (self', log, r) ->
         (releases structured_state = []
          /\ log = [StructuredExtractor; UnstructuredExtractor]
          /\ exists r',
               _parse_unstructured_releases content_area
                   (PLATFORM_SELECTORS (platform self)) structured_state
               = (self', [UnstructuredExtractor], r'))
         \/ (releases structured_state <> []
             /\ log = [StructuredExtractor]
             /\ self' = structured_state).
Proof.
  destruct (structured_run (fun _ => True) content_area
              (PLATFORM_SELECTORS (platform self)) self)
    as [s1 [Hs _]]; [intros ? ? ?; exact Logic.I | exact Logic.I |].
  exists s1. split; [exact Hs|].
  intros self' log r H.
  cbv beta iota zeta delta [scrape try_except scrape_body bind lift get] in H.
  rewrite Hs in H. cbv iota beta in H.
  destruct (releases s1) as [|g gs] eqn:Hrel.
  - left.
    destruct (_parse_unstructured_releases content_area
                (PLATFORM_SELECTORS (platform self)) s1) as [[s2 l2] r2] eqn:E2.
    destruct (unstructured_frame (fun _ => True) (fun _ _ _ _ _ _ => Logic.I)
                _ _ _ _ _ _ Logic.I E2) as [_ ->].
    assert (Hrun : log = [StructuredExtractor; UnstructuredExtractor] /\ self' = s2).
    { destruct r2 as [[]|e].
      - cbv [ret] in H. simpl in H. inversion H; auto.
      - rewrite scrape_handler_returns in H. simpl in H. inversion H; auto. }
    destruct Hrun as [-> ->]. split; [reflexivity|]. split; [reflexivity|].
    exists r2. reflexivity.
  - right. cbv [ret] in H. simpl in H. inversion H; subst.
    split; [discriminate | auto].
Qed.

(** C3. On a scraper that holds no release yet, the unstructured extractor
    is entered if and only if the structured extractor left no release
    group: with at least one group the log of the run is the structured
    extractor alone, with none it is the structured extractor followed by
    the unstructured one. *)
Theorem unstructured_runs_iff_structured_empty
  (content_area : ContentArea) (self : Scraper) :
  releases self = [] ->
  exists structured_state,
    _parse_structured_releases content_area
        (PLATFORM_SELECTORS (platform self)) self
      = (structured_state, [StructuredExtractor], Return tt)
    /\ forall self' log r,
         scrape (Return content_area) self = (self', log, r) ->
         (In UnstructuredExtractor log <-> releases structured_state = [])
         /\ (releases structured_state <> [] -> log = [StructuredExtractor])
         /\ (releases structured_state = [] ->
             log = [StructuredExtractor; UnstructuredExtractor]).
Proof.
  intros _.
  destruct (scrape_cases content_area self) as [s1 [Hs Hcases]].
  exists s1. split; [exact Hs|].
  intros self' log r H.
  destruct (Hcases _ _ _ H) as [[Hnone [-> _]]|[Hsome [-> _]]].
  - split; [|split].
    + split; [intros _; exact Hnone | intros _; simpl; auto].
    + intro Hne. contradiction.
    + reflexivity.
  - split; [|split].
    + split; [|intro E; contradiction].
      simpl. intros [E|[]]. discriminate E.
    + reflexivity.
    + intro E. contradiction.
Qed.

Lemma unstructured_runs_iff_structured_empty_witness :
  releases Sample.scraper = []
  /\ exists structured_state,
       _parse_structured_releases Sample.dated_page
           (PLATFORM_SELECTORS (platform Sample.scraper)) Sample.scraper
         = (structured_state, [StructuredExtractor], Return tt)
       /\ forall self' log r,
            scrape (Return Sample.dated_page) Sample.scraper = (self', log, r) ->
            (In UnstructuredExtractor log <-> releases structured_state = [])
            /\ (releases structured_state <> [] -> log = [StructuredExtractor])
            /\ (releases structured_state = [] ->
                log = [StructuredExtractor; UnstructuredExtractor]).
Proof.
  split; [reflexivity|].
  apply (unstructured_runs_iff_structured_empty Sample.dated_page Sample.scraper).
  reflexivity.
Defined.

(** ** The date window *)

Lemma init_cutoff (now : Z) (url : string) (months : Z) (self : Scraper) :
  __init__ now url months = Return self ->
  cutoff_date self = (now - months * 30 * day_us)%Z /\ releases self = [].
Proof.
  unfold __init__, timedelta_days, datetime_sub.
  destruct (Z.abs (months * 30) <=? 999999999)%Z; [|discriminate].
  destruct ((timestamp datetime_min <=? now - months * 30 * day_us)
            && (now - months * 30 * day_us <=? timestamp datetime_max))%Z;
    [|discriminate].
  intro H. inversion H; subst. simpl. auto.
Qed.

(** When the body of [scrape] returns, it returns the releases of the object
    that pass the window test, and the cutoff is the one the object had. *)
Lemma scrape_body_returns_window (page : outcome ContentArea)
  (self self' : Scraper) (log : list call) (kept : list Group.t) :
  scrape_body page self = (self', log, Return kept) ->
  kept = filter (in_window (cutoff_date self')) (releases self')
  /\ cutoff_date self' = cutoff_date self.
Proof.
  intro H. unfold scrape_body in H.
  pose (I := fun s : Scraper => cutoff_date s = cutoff_date self).
  assert (HI : append_stable I) by (intros s rs Hs; exact Hs).
  destruct (bind_inv _ _ _ _ _ _ H)
    as [[s1 [l1 [content_area [l2 [E1 [K1 _]]]]]]|[e [_ E]]]; [|discriminate E].
  unfold lift in E1. inversion E1; subst s1. clear E1 H.
  destruct (bind_inv _ _ _ _ _ _ K1)
    as [[s2 [l3 [self0 [l4 [E2 [K2 _]]]]]]|[e [_ E]]]; [|discriminate E].
  unfold get in E2. inversion E2; subst s2 self0. clear E2 K1.
  destruct (bind_inv _ _ _ _ _ _ K2)
    as [[s3 [l5 [u [l6 [E3 [K3 _]]]]]]|[e [_ E]]]; [|discriminate E].
  destruct (structured_run I content_area (PLATFORM_SELECTORS (platform self))
              self HI eq_refl) as [s3' [Es Hs3]].
  rewrite Es in E3. inversion E3; subst s3'. clear E3 K2.
  destruct (bind_inv _ _ _ _ _ _ K3)
    as [[s4 [l7 [self1 [l8 [E4 [K4 _]]]]]]|[e [_ E]]]; [|discriminate E].
  unfold get in E4. inversion E4; subst s4 self1. clear E4 K3.
  destruct (bind_inv _ _ _ _ _ _ K4)
    as [[s5 [l9 [u' [l10 [E5 [K5 _]]]]]]|[e [_ E]]]; [|discriminate E].
  assert (Hs5 : I s5).
  { destruct (releases s3).
    - exact (proj1 (unstructured_frame I (fun s _ _ _ Hs _ => Hs)
                      _ _ _ _ _ _ Hs3 E5)).
    - unfold ret in E5. inversion E5; subst. exact Hs3. }
  clear E5 K4.
  destruct (bind_inv _ _ _ _ _ _ K5)
    as [[s6 [l11 [self2 [l12 [E6 [K6 _]]]]]]|[e [_ E]]]; [|discriminate E].
  unfold get in E6. inversion E6; subst s6 self2.
  unfold ret in K6. inversion K6; subst.
  split; [reflexivity | exact Hs5].
Qed.

(** C4. The cutoff is the current time minus [months * 30] days.  When the
    extraction returns, a release group is in the result of [scrape] if and
    only if it is in the collection and its parsed date is present and on or
    after the cutoff: a group dated at the cutoff is kept, a group dated one
    day before it is not. *)
Theorem window_filter_inclusive_cutoff
  (now : Z) (url : string) (months : Z) (self : Scraper)
  (page : outcome ContentArea) (self' : Scraper) (log : list call)
  (kept : list Group.t) :
  __init__ now url months = Return self ->
  scrape_body page self = (self', log, Return kept) ->
  cutoff_date self' = (now - months * 30 * day_us)%Z
  /\ scrape page self = (self', log, Return kept)
  /\ (forall g, In g kept <->
                In g (releases self') /\ dated_from (cutoff_date self') g)
  /\ (forall g d, In g (releases self') -> Group.date g = Some d ->
                  timestamp d = cutoff_date self' -> In g kept)
  /\ (forall g d, Group.date g = Some d ->
                  timestamp d = (cutoff_date self' - day_us)%Z -> ~ In g kept).
Proof.
  intros Hinit Hbody.
  destruct (init_cutoff _ _ _ _ Hinit) as [Hcut _].
  destruct (scrape_body_returns_window _ _ _ _ _ Hbody) as [Hkept Hsame].
  assert (Hiff : forall g, In g kept <->
                 In g (releases self') /\ dated_from (cutoff_date self') g).
  { intro g. rewrite Hkept, filter_In. unfold in_window, dated_from.
    split; intros [Hin Hd]; (split; [exact Hin|]).
    - destruct (Group.date g) as [d|]; [|discriminate].
      exists d. split; [reflexivity | apply Z.leb_le; exact Hd].
    - destruct Hd as [d [-> Hle]]. apply Z.leb_le; exact Hle. }
  split; [congruence|]. split.
  - unfold scrape, try_except. rewrite Hbody. reflexivity.
  - split; [exact Hiff|]. split.
    + intros g d Hin Hd Ht. apply Hiff. split; [exact Hin|].
      exists d. split; [exact Hd | lia].
    + intros g d Hd Ht Hin. apply Hiff in Hin.
      destruct Hin as [_ [d' [Hd' Hle]]].
      assert (d' = d) by congruence. subst d'.
      unfold day_us in *. lia.
Qed.

Lemma window_filter_inclusive_cutoff_witness :
  let self' := fst (fst Sample.scraped) in
  cutoff_date self' = (Sample.noon - 12 * 30 * day_us)%Z
  /\ scrape (Return Sample.dated_page) Sample.scraper
     = (self', snd (fst Sample.scraped), Return Sample.kept)
  /\ (forall g, In g Sample.kept <->
                In g (releases self') /\ dated_from (cutoff_date self') g)
  /\ (forall g d, In g (releases self') -> Group.date g = Some d ->
                  timestamp d = cutoff_date self' -> In g Sample.kept)
  /\ (forall g d, Group.date g = Some d ->
                  timestamp d = (cutoff_date self' - day_us)%Z ->
                  ~ In g Sample.kept).
Proof.
  apply (window_filter_inclusive_cutoff Sample.noon Sample.release_notes 12
           Sample.scraper (Return Sample.dated_page)
           (fst (fst Sample.scraped)) (snd (fst Sample.scraped)) Sample.kept).
  - vm_compute. reflexivity.
  - vm_compute. reflexivity.
Defined.

(** ** Deduplication in the unstructured extractor *)

Lemma scan_items_true (items : list Item.t) (payload : string) (b : bool) :
  scan_items items payload b = true <->
  b = true \/ In payload (map Item.text items).
Proof.
  induction items as [|item items IH]; simpl.
  - tauto.
  - destruct (String.eqb (Item.text item) payload) eqn:E.
    + apply String.eqb_eq in E. tauto.
    + apply String.eqb_neq in E. rewrite IH. tauto.
Qed.

(** The two nested loops find the payload exactly when an item of the
    collection has it: the [break] of the inner loop loses nothing. *)
Lemma scan_releases_true (rs : list Group.t) (payload : string) (b : bool) :
  scan_releases rs payload b = true <-> b = true \/ In payload (payloads rs).
Proof.
  revert b. induction rs as [|release rs IH]; intro b; simpl.
  - tauto.
  - rewrite IH, scan_items_true, in_app_iff. tauto.
Qed.

Lemma scan_releases_false (rs : list Group.t) (payload : string) :
  scan_releases rs payload false = false <-> ~ In payload (payloads rs).
Proof.
  pose proof (scan_releases_true rs payload false) as H.
  destruct (scan_releases rs payload false); split; intro K.
  - discriminate.
  - destruct (proj1 H eq_refl) as [E|Hin]; [discriminate | contradiction].
  - intro Hin. assert (E : false = true) by (apply H; auto). discriminate E.
  - reflexivity.
Qed.

Lemma payloads_append (rs : list Group.t) (g : Group.t) :
  payloads (rs ++ [g]) = payloads rs ++ map Item.text (Group.items g).
Proof.
  unfold payloads. rewrite flat_map_app. simpl. rewrite app_nil_r. reflexivity.
Qed.

Lemma nodup_append_fresh (self : Scraper) (e : Element) (d : datetime)
  (date_str : string) :
  NoDup (payloads (releases self)) ->
  scan_releases (releases self) (markup e) false = false ->
  NoDup (payloads (releases
    (set_releases self
       (releases self
        ++ [Group.mk (Some d) date_str [make_item e (get_text e)] (url self)])))).
Proof.
  intros Hnd Hscan. apply scan_releases_false in Hscan.
  simpl. rewrite payloads_append. simpl.
  apply NoDup_app.
  - exact Hnd.
  - constructor; [intros [] | constructor].
  - intros a Ha [<-|[]]. exact (Hscan Ha).
Qed.

Lemma long_text_truthy (t : string) : (20 < len t)%Z -> truthy t = true.
Proof. destruct t; [unfold len; simpl; lia | reflexivity]. Qed.

Lemma emit_duplicate (e : Element) (d : datetime) (date_str : string)
  (self : Scraper) :
  In (markup e) (payloads (releases self)) ->
  emit e d date_str self = (self, [], Return tt).
Proof.
  intro Hin. unfold emit.
  destruct (truthy (get_text e) && (20 <? len (get_text e))%Z); [|reflexivity].
  unfold bind, get.
  assert (H : scan_releases (releases self) (markup e) false = true)
    by (apply scan_releases_true; auto).
  rewrite H. reflexivity.
Qed.

Lemma emit_fresh (e : Element) (d : datetime) (date_str : string)
  (self : Scraper) :
  ~ In (markup e) (payloads (releases self)) ->
  (20 < len (get_text e))%Z ->
  emit e d date_str self
  = (set_releases self
       (releases self
        ++ [Group.mk (Some d) date_str [make_item e (get_text e)] (url self)]),
     [], Return tt).
Proof.
  intros Hfresh Hlen. unfold emit.
  rewrite (long_text_truthy _ Hlen).
  assert (Hlt : (20 <? len (get_text e))%Z = true) by (apply Z.ltb_lt; exact Hlen).
  rewrite Hlt. simpl. unfold bind, get.
  apply scan_releases_false in Hfresh. rewrite Hfresh. reflexivity.
Qed.

(** C6. In the unstructured extractor a candidate whose raw payload is that
    of an item already collected is not emitted, so a collection without two
    equal payloads stays so through the run; the test reads the raw payload:
    a candidate with a new payload and more than 20 characters of text is
    emitted, and two candidates with the same text and different markup are
    both emitted. *)
Theorem unstructured_no_equal_payloads :
  (forall content_area selectors self self' log r,
      NoDup (payloads (releases self)) ->
      _parse_unstructured_releases content_area selectors self = (self', log, r) ->
      NoDup (payloads (releases self')))
  /\ (forall e d date_str self,
         In (markup e) (payloads (releases self)) ->
         emit e d date_str self = (self, [], Return tt))
  /\ (forall e d date_str self,
         ~ In (markup e) (payloads (releases self)) ->
         (20 < len (get_text e))%Z ->
         emit e d date_str self
         = (set_releases self
              (releases self
               ++ [Group.mk (Some d) date_str [make_item e (get_text e)]
                     (url self)]),
            [], Return tt))
  /\ (forall e1 e2 d1 d2 s1 s2 self,
         releases self = [] ->
         get_text e1 = get_text e2 ->
         markup e1 <> markup e2 ->
         (20 < len (get_text e1))%Z ->
         exists self',
           (emit e1 d1 s1 ;;; emit e2 d2 s2) self = (self', [], Return tt)
           /\ payloads (releases self') = [markup e1; markup e2])
  /\ (forall content_area self self' log r,
         releases self = [] ->
         scrape (Return content_area) self = (self', log, r) ->
         In UnstructuredExtractor log ->
         NoDup (payloads (releases self'))).
Proof.
  split; [|split; [|split; [|split]]].
  5: { intros content_area self self' log r _ H Hin.
       destruct (scrape_cases content_area self) as [s1 [_ Hcases]].
       destruct (Hcases _ _ _ H) as [[Hnone [_ [r' Hu]]]|[_ [-> _]]].
       - refine (proj1 (unstructured_frame
                          (fun s => NoDup (payloads (releases s)))
                          nodup_append_fresh _ _ _ _ _ _ _ Hu)).
         rewrite Hnone. constructor.
       - simpl in Hin. destruct Hin as [E|[]]. discriminate E. }
  - intros content_area selectors self self' log r Hnd H.
    exact (proj1 (unstructured_frame (fun s => NoDup (payloads (releases s)))
                    nodup_append_fresh _ _ _ _ _ _ Hnd H)).
  - exact emit_duplicate.
  - exact emit_fresh.
  - intros e1 e2 d1 d2 s1 s2 self Hempty Htext Hmarkup Hlen.
    eexists. split.
    + unfold bind. rewrite emit_fresh.
      * rewrite emit_fresh.
        -- reflexivity.
        -- simpl. rewrite Hempty. simpl. intros [E|[]]. exact (Hmarkup E).
        -- rewrite <- Htext. exact Hlen.
      * rewrite Hempty. intros [].
      * exact Hlen.
    + simpl. rewrite Hempty. reflexivity.
Qed.

Lemma unstructured_no_equal_payloads_witness :
  (let run := _parse_unstructured_releases Sample.undated_page
                (PLATFORM_SELECTORS "google_cloud") Sample.scraper in
   NoDup (payloads (releases (fst (fst run)))))
  /\ emit Sample.feature_a (midnight 2024 5 1) "May 1, 2024" Sample.scraper_with_a
     = (Sample.scraper_with_a, [], Return tt)
  /\ emit Sample.feature_b (midnight 2024 5 2) "2024-05-02" Sample.scraper_with_a
     = (set_releases Sample.scraper_with_a
          (releases Sample.scraper_with_a
           ++ [Group.mk (Some (midnight 2024 5 2)) "2024-05-02"
                 [make_item Sample.feature_b (get_text Sample.feature_b)]
                 (url Sample.scraper_with_a)]),
        [], Return tt)
  /\ exists self',
       (emit Sample.feature_a (midnight 2024 5 1) "May 1, 2024" ;;;
        emit Sample.feature_b (midnight 2024 5 2) "2024-05-02") Sample.scraper
       = (self', [], Return tt)
       /\ payloads (releases self')
          = [markup Sample.feature_a; markup Sample.feature_b].
Proof.
  destruct unstructured_no_equal_payloads as [Hrun [Hdup [Hfresh [Hboth _]]]].
  split; [|split; [|split]].
  - apply (Hrun Sample.undated_page (PLATFORM_SELECTORS "google_cloud")
             Sample.scraper _
             (snd (fst (_parse_unstructured_releases Sample.undated_page
                          (PLATFORM_SELECTORS "google_cloud") Sample.scraper)))
             (snd (_parse_unstructured_releases Sample.undated_page
                     (PLATFORM_SELECTORS "google_cloud") Sample.scraper))).
    + simpl. constructor.
    + vm_compute. reflexivity.
  - apply Hdup. simpl. auto.
  - apply Hfresh.
    + simpl. intros [E|[]]. discriminate E.
    + vm_compute. reflexivity.
  - apply Hboth.
    + reflexivity.
    + reflexivity.
    + discriminate.
    + vm_compute. reflexivity.
Defined.

(** ** The sibling walk of the structured extractor *)

Lemma prefix_empty (s : string) : String.prefix "" s = true.
Proof. destruct s; reflexivity. Qed.

Lemma prefix_app_l (k a b : string) :
  String.prefix k a = true -> String.prefix k (a ++ b)%string = true.
Proof.
  revert a. induction k as [|c k IH]; intros a H; [apply prefix_empty|].
  destruct a as [|c' a]; simpl in *; [discriminate|].
  destruct (ascii_dec c c'); [apply IH; exact H | discriminate].
Qed.

Lemma prefix_self (k : string) : String.prefix k k = true.
Proof.
  induction k as [|c k IH]; simpl; [reflexivity|].
  destruct (ascii_dec c c); [exact IH | congruence].
Qed.

Lemma contains_prefix (k s : string) :
  String.prefix k s = true -> contains k s = true.
Proof. intro H. destruct s; simpl in *; rewrite H; reflexivity. Qed.

Lemma contains_app_l (k a b : string) :
  contains k a = true -> contains k (a ++ b)%string = true.
Proof.
  induction a as [|c a IH]; simpl; intro H.
  - rewrite orb_false_r in H. apply contains_prefix.
    destruct k; [apply prefix_empty | discriminate].
  - apply orb_true_iff in H. apply orb_true_iff. destruct H as [H|H].
    + left. exact (prefix_app_l k (String c a) b H).
    + right. exact (IH H).
Qed.

Lemma contains_app_r (k a b : string) :
  contains k b = true -> contains k (a ++ b)%string = true.
Proof.
  intro H. induction a as [|c a IH]; simpl; [exact H|].
  rewrite IH. apply orb_true_r.
Qed.

Lemma contains_join (k : string) (parts : list string) :
  In k parts -> contains k (join " " parts) = true.
Proof.
  induction parts as [|p parts IH]; [intros []|].
  intros [->|Hin].
  - destruct parts; simpl.
    + apply contains_prefix, prefix_self.
    + apply contains_app_l, contains_prefix, prefix_self.
  - destruct parts as [|p' parts]; [destruct Hin|].
    change (join " " (p :: p' :: parts))
      with (p ++ " " ++ join " " (p' :: parts))%string.
    apply contains_app_r, contains_app_r, IH, Hin.
Qed.

(** A class of the walk's list is found by the categorizer in the joined
    classes: the role marker decides the category. *)
Lemma role_class_gives_hint (e : Element) :
  has_role_class e = true -> exists c, hint_category (Some e) = Some c.
Proof.
  unfold has_role_class. intro H.
  apply existsb_exists in H. destruct H as [cls [Hin Hmem]].
  assert (Hc : contains cls (class_str e) = true).
  { unfold class_str. destruct (classes e) as [|c0 cs] eqn:E; [destruct Hin|].
    apply contains_join. exact Hin. }
  unfold mem, role_classes in Hmem. simpl in Hmem.
  unfold hint_category, feature_role.
  destruct (contains "release-feature" (class_str e)) eqn:F; [eauto|].
  simpl.
  destruct (contains "release-changed" (class_str e)) eqn:C1; [eauto|].
  destruct (contains "release-announcement" (class_str e)) eqn:C2; [eauto|].
  destruct (contains "release-breaking" (class_str e)) eqn:C3; [eauto|].
  destruct (contains "release-issue" (class_str e)) eqn:C4; [eauto|].
  exfalso.
  repeat (apply orb_true_iff in Hmem; destruct Hmem as [Hmem|Hmem]);
    try discriminate Hmem; apply String.eqb_eq in Hmem; subst cls; congruence.
Qed.

(** The walk over siblings that are not headers appends what each round
    gives, in order. *)
Lemma walk_app (selectors : Selectors) (before rest : list Element)
  (items : list Item.t) :
  (forall x, In x before -> mem (name x) (date_headers selectors) = false) ->
  walk selectors (before ++ rest) items
  = walk selectors rest (items ++ flat_map walk_step before).
Proof.
  revert items. induction before as [|x before IH]; intros items H; simpl.
  - rewrite app_nil_r. reflexivity.
  - rewrite (H x (or_introl eq_refl)).
    rewrite IH; [|intros y Hy; apply H; right; exact Hy].
    rewrite app_assoc. reflexivity.
Qed.

(** C8, as the code has it.  A walked sibling that bears a release class
    becomes one item, its category the one the role marker decides, when its
    flattened text has more than 10 characters; with 10 characters or fewer
    it gives no item. *)
Theorem role_marked_sibling_needs_long_text
  (selectors : Selectors) (sibling : Element) :
  has_role_class sibling = true ->
  exists c,
    hint_category (Some sibling) = Some c
    /\ ((10 < len (get_text sibling))%Z ->
        walk_step sibling = [Item.mk (markup sibling) c (hrefs sibling)])
    /\ ((len (get_text sibling) <= 10)%Z -> walk_step sibling = [])
    /\ (forall before after items,
           (forall x, In x (before ++ [sibling]) ->
                      mem (name x) (date_headers selectors) = false) ->
           walk selectors (before ++ sibling :: after) items
           = walk selectors after
               (items ++ flat_map walk_step before ++ walk_step sibling)).
Proof.
  intro Hrole. destruct (role_class_gives_hint _ Hrole) as [c Hc].
  exists c. split; [exact Hc|].
  assert (Hstep : walk_step sibling = role_branch sibling)
    by (unfold walk_step; rewrite Hrole; reflexivity).
  split; [|split].
  - intro Hlen. rewrite Hstep. unfold role_branch, make_item.
    destruct (get_text sibling) eqn:T; [unfold len in Hlen; simpl in Hlen; lia|].
    assert (E : (10 <? len (String a s))%Z = true) by (apply Z.ltb_lt; exact Hlen).
    rewrite E. simpl andb. cbv iota.
    rewrite (categorize_by_hint _ _ Hc). reflexivity.
  - intro Hlen. rewrite Hstep. unfold role_branch.
    assert (E : (10 <? len (get_text sibling))%Z = false)
      by (apply Z.ltb_ge; exact Hlen).
    rewrite E, andb_false_r. reflexivity.
  - intros before after items H.
    change (before ++ sibling :: after) with (before ++ [sibling] ++ after).
    rewrite app_assoc, (walk_app selectors (before ++ [sibling]) after items H).
    rewrite flat_map_app. simpl. rewrite app_nil_r. reflexivity.
Qed.

Lemma role_marked_sibling_needs_long_text_witness :
  has_role_class Sample.feature_a = true
  /\ exists c,
       hint_category (Some Sample.feature_a) = Some c
       /\ ((10 < len (get_text Sample.feature_a))%Z ->
           walk_step Sample.feature_a
           = [Item.mk (markup Sample.feature_a) c (hrefs Sample.feature_a)])
       /\ ((len (get_text Sample.feature_a) <= 10)%Z ->
           walk_step Sample.feature_a = [])
       /\ (forall before after items,
              (forall x, In x (before ++ [Sample.feature_a]) ->
                         mem (name x)
                           (date_headers (PLATFORM_SELECTORS "google_cloud"))
                         = false) ->
              walk (PLATFORM_SELECTORS "google_cloud")
                (before ++ Sample.feature_a :: after) items
              = walk (PLATFORM_SELECTORS "google_cloud") after
                  (items ++ flat_map walk_step before
                   ++ walk_step Sample.feature_a)).
Proof.
  split; [reflexivity|].
  apply (role_marked_sibling_needs_long_text
           (PLATFORM_SELECTORS "google_cloud") Sample.feature_a).
  reflexivity.
Defined.

(** C8, as stated, fails: a sibling with a release class and the text
    ["New"] is walked and gives no item. *)
Lemma role_marked_sibling_short_text_dropped :
  has_role_class Sample.short_feature = true
  /\ walk_step Sample.short_feature = []
  /\ walk (PLATFORM_SELECTORS "google_cloud") [Sample.short_feature] [] = [].
Proof. repeat split; reflexivity. Qed.

Lemma walk_step_by_branch (sibling : Element) :
  walk_step sibling
  = match branch_of sibling with
    | Some b => branch_items b sibling
    | None => []
    end.
Proof.
  unfold walk_step, branch_of, mem.
  destruct (has_role_class sibling); [reflexivity|]. simpl.
  destruct (String.eqb (name sibling) "p"),
           (String.eqb (name sibling) "ul"),
           (String.eqb (name sibling) "ol"),
           (String.eqb (name sibling) "li"),
           (String.eqb (name sibling) "div"); reflexivity.
Qed.

Lemma one_item_at_most (e : Element) :
  (List.length (role_branch e) <= 1)%nat /\ (List.length (block_branch e) <= 1)%nat.
Proof.
  unfold role_branch, block_branch.
  destruct (truthy (get_text e) && (10 <? len (get_text e))%Z); simpl; auto.
Qed.

(** C10, as the code has it.  Every walked sibling is handled by at most one
    branch: one with a release class by the role-marker branch alone, also
    when it is a list or a paragraph; and a sibling that is not handled by
    the list branch gives at most one item, so never two items with the same
    raw payload. *)
Theorem sibling_at_most_one_branch (sibling : Element) :
  walk_step sibling
  = match branch_of sibling with
    | Some b => branch_items b sibling
    | None => []
    end
  /\ (has_role_class sibling = true ->
      branch_of sibling = Some RoleMarker
      /\ walk_step sibling = role_branch sibling)
  /\ (branch_of sibling <> Some ListExpansion ->
      (List.length (walk_step sibling) <= 1)%nat
      /\ NoDup (map Item.text (walk_step sibling))).
Proof.
  split; [apply walk_step_by_branch|]. split.
  - intro H. unfold branch_of, walk_step. rewrite H. auto.
  - intro H.
    assert (Hlen : (List.length (walk_step sibling) <= 1)%nat).
    { rewrite walk_step_by_branch.
      destruct (branch_of sibling) as [[| |]|]; simpl; auto.
      - apply one_item_at_most.
      - congruence.
      - apply one_item_at_most. }
    split; [exact Hlen|].
    destruct (walk_step sibling) as [|i [|j l]]; simpl in *.
    + constructor.
    + constructor; [intros [] | constructor].
    + lia.
Qed.

Lemma sibling_at_most_one_branch_witness :
  has_role_class Sample.marked_list = true
  /\ branch_of Sample.marked_list <> Some ListExpansion
  /\ branch_of Sample.marked_list = Some RoleMarker
  /\ walk_step Sample.marked_list = role_branch Sample.marked_list
  /\ (List.length (walk_step Sample.marked_list) <= 1)%nat
  /\ NoDup (map Item.text (walk_step Sample.marked_list)).
Proof.
  destruct (sibling_at_most_one_branch Sample.marked_list) as [_ [Hrole Hone]].
  split; [reflexivity|]. split; [discriminate|].
  destruct (Hrole eq_refl) as [Hb Hw].
  destruct Hone as [Hlen Hnd]; [discriminate|].
  repeat split; assumption.
Defined.

(** C10, as stated, fails: a list with two equal entries gives two items
    with the same raw payload, and a [table] is handled by no branch. *)
Lemma list_sibling_repeats_payload :
  (exists i j,
      walk_step Sample.bullets = [i; j] /\ Item.text i = Item.text j)
  /\ branch_of Sample.table = None
  /\ walk_step Sample.table = [].
Proof.
  split; [|split; reflexivity].
  eexists _, _. split; reflexivity.
Qed.

(** ** The order of the rendered groups *)

Section SortFacts.

Context {A : Type} (key : A -> Z).

Local Abbreviation newer_or_equal := (fun a b : A => (key b <= key a)%Z).

Lemma insert_desc_perm (x : A) (l : list A) :
  Permutation (insert_desc key x l) (x :: l).
Proof.
  induction l as [|y l IH]; simpl.
  - apply Permutation_refl.
  - destruct (key x <? key y)%Z.
    + apply Permutation_trans with (y :: x :: l).
      * apply perm_skip. exact IH.
      * apply perm_swap.
    + apply Permutation_refl.
Qed.

Lemma sort_desc_perm (l : list A) : Permutation (sort_desc key l) l.
Proof.
  induction l as [|x l IH]; simpl.
  - apply perm_nil.
  - apply Permutation_trans with (x :: sort_desc key l).
    + apply insert_desc_perm.
    + apply perm_skip. exact IH.
Qed.

Lemma insert_desc_sorted (x : A) (l : list A) :
  StronglySorted newer_or_equal l ->
  StronglySorted newer_or_equal (insert_desc key x l).
Proof.
  induction 1 as [|y l Hsorted IH Hall]; simpl.
  - constructor; constructor.
  - destruct (key x <? key y)%Z eqn:E.
    + constructor; [exact IH|].
      apply Forall_forall. intros z Hz.
      apply (Permutation_in _ (insert_desc_perm x l)) in Hz.
      destruct Hz as [<-|Hz].
      * apply Z.ltb_lt in E. lia.
      * rewrite Forall_forall in Hall. exact (Hall z Hz).
    + apply Z.ltb_ge in E.
      constructor; [constructor; assumption|].
      constructor; [exact E|].
      rewrite Forall_forall in Hall |- *. intros z Hz.
      specialize (Hall z Hz). simpl in Hall. lia.
Qed.

Lemma sort_desc_sorted (l : list A) :
  StronglySorted newer_or_equal (sort_desc key l).
Proof.
  induction l as [|x l IH]; simpl.
  - constructor.
  - apply insert_desc_sorted. exact IH.
Qed.

End SortFacts.

Lemma sorted_on (A : Type) (R R' : A -> A -> Prop) (P : A -> Prop) (l : list A) :
  (forall a b, P a -> P b -> R a b -> R' a b) ->
  Forall P l -> StronglySorted R l -> StronglySorted R' l.
Proof.
  intros Himp Hall Hsorted.
  induction Hsorted as [|a l Hsorted IH Hfa]; [constructor|].
  inversion Hall as [|? ? Pa Pl]; subst.
  constructor; [exact (IH Pl)|].
  rewrite Forall_forall in *. intros b Hb.
  apply Himp; auto.
Qed.

Lemma filtered_dated (cutoff : Z) (collection : list Group.t) :
  Forall (dated_from cutoff) (filter (in_window cutoff) collection).
Proof.
  apply Forall_forall. intros g Hg. apply filter_In in Hg.
  destruct Hg as [_ Hw]. unfold in_window in Hw. unfold dated_from.
  destruct (Group.date g) as [d|]; [|discriminate].
  exists d. split; [reflexivity | apply Z.leb_le; exact Hw].
Qed.

Lemma shown_dated (cutoff : Z) (collection : list Group.t) :
  Forall (dated_from cutoff)
    (newest_first (filter (in_window cutoff) collection)).
Proof.
  apply Forall_forall. intros g Hg.
  apply (Permutation_in _ (sort_desc_perm sort_key _)) in Hg.
  pose proof (filtered_dated cutoff collection) as H.
  rewrite Forall_forall in H. exact (H g Hg).
Qed.

(** The date range of a non-empty collection of dated releases is defined. *)
Lemma html_range_returns strftime now (self : Scraper) (cutoff : Z)
  (releases : list Group.t) :
  Forall (dated_from cutoff) releases ->
  exists range, html_range strftime now self releases = Return range.
Proof.
  intro H. unfold html_range.
  destruct releases as [|g gs]; [eauto|].
  inversion H as [|? ? [d [Hd _]] _]; subst.
  unfold dates. simpl. rewrite Hd. simpl. eauto.
Qed.

Section RenderedOrder.

Variable soup_text : string -> string.
Variable strftime : Z -> string -> string.
Variable isoformat : Z -> string.
Variable json_dumps : json -> string.
Variable now : nat -> Z.
Variable stylesheet : list string.
Variable self : Scraper.

(** C5. For a filtered collection, each renderer writes its group sections
    in the order of the sorted list: a rearrangement of the collection in
    which every group has a parsed date and no group is followed by a newer
    one. *)
Theorem renderers_write_newest_first (cutoff : Z) (collection : list Group.t) :
  let filtered := filter (in_window cutoff) collection in
  let shown := newest_first filtered in
  Permutation shown filtered
  /\ Forall (fun g => Group.date g <> None) shown
  /\ StronglySorted
       (fun a b => exists da db,
            Group.date a = Some da /\ Group.date b = Some db
            /\ (timestamp db <= timestamp da)%Z) shown
  /\ (exists before after,
         _format_text soup_text strftime now self filtered
         = join nl (before ++ flat_map (text_release soup_text) shown ++ after))
  /\ (exists before after,
         _format_markdown soup_text strftime now self filtered
         = join nl (before ++ flat_map (markdown_release soup_text) shown ++ after))
  /\ (exists metadata statistics,
         _format_json soup_text isoformat json_dumps now self filtered
         = json_dumps
             (JObj [("metadata", metadata); ("statistics", statistics);
                    ("releases",
                     JArr (map (json_release soup_text isoformat) shown))]))
  /\ (exists before after,
         _format_html strftime now stylesheet self filtered
         = Return (join nl (before ++ flat_map html_release shown ++ after))).
Proof.
  intros filtered shown.
  pose proof (shown_dated cutoff collection) as Hdated.
  fold filtered in Hdated. fold shown in Hdated.
  split; [apply sort_desc_perm|].
  split.
  { apply Forall_forall. intros g Hg. rewrite Forall_forall in Hdated.
    destruct (Hdated g Hg) as [d [Hd _]]. congruence. }
  split.
  { apply (sorted_on _ (fun a b => (sort_key b <= sort_key a)%Z) _
             (dated_from cutoff)).
    - intros a b [da [Ha _]] [db [Hb _]] Hab.
      exists da, db. unfold sort_key in Hab. rewrite Ha, Hb in Hab. auto.
    - exact Hdated.
    - apply sort_desc_sorted. }
  split.
  { unfold _format_text. fold filtered.
    destruct filtered as [|g gs] eqn:E.
    - eexists _, _. reflexivity.
    - eexists _, _. reflexivity. }
  split.
  { unfold _format_markdown. fold filtered.
    destruct filtered as [|g gs] eqn:E.
    - eexists _, _. reflexivity.
    - eexists _, _. reflexivity. }
  split.
  { eexists _, _. reflexivity. }
  unfold _format_html. fold filtered. fold shown.
  destruct (html_range_returns strftime now self cutoff shown Hdated) as [range Hr].
  rewrite Hr.
  destruct shown as [|g gs].
  - exists (html_head strftime now stylesheet self). eexists. reflexivity.
  - eexists _, _. reflexivity.
Qed.

End RenderedOrder.

(** ** Failures *)

Lemma scrape_body_raises (page : outcome ContentArea) (self failed : Scraper)
  (log : list call) (e : exn) :
  scrape_body page self = (failed, log, Raise e) ->
  scrape page self = (failed, log, Return []).
Proof.
  intro H. unfold scrape, try_except. rewrite H, scrape_handler_returns.
  rewrite app_nil_r. reflexivity.
Qed.

(** [scrape] returns, and what it returns is dated from the cutoff on. *)
Lemma scrape_returns_dated (page : outcome ContentArea) (self : Scraper) :
  exists self' log kept,
    scrape page self = (self', log, Return kept)
    /\ Forall (dated_from (cutoff_date self)) kept.
Proof.
  destruct (scrape_body page self) as [[self' log] [kept|e]] eqn:E.
  - exists self', log, kept. split.
    + unfold scrape, try_except. rewrite E. reflexivity.
    + destruct (scrape_body_returns_window _ _ _ _ _ E) as [-> <-].
      apply filtered_dated.
  - exists self', log, []. split; [exact (scrape_body_raises _ _ _ _ _ E) | constructor].
Qed.

Section Failures.

Variable soup_text : string -> string.
Variable strftime : Z -> string -> string.
Variable isoformat : Z -> string.
Variable json_dumps : json -> string.
Variable now : nat -> Z.
Variable stylesheet : list string.

Local Abbreviation render :=
  (format_output soup_text strftime isoformat json_dumps now stylesheet).
Local Abbreviation run := (main soup_text strftime isoformat json_dumps now stylesheet).

Lemma render_returns (self : Scraper) (cutoff : Z) (releases : list Group.t)
  (format_type : string) :
  Forall (dated_from cutoff) releases ->
  exists document, render self releases format_type = Return document.
Proof.
  intro H. unfold format_output.
  destruct (String.eqb format_type "json"); [eauto|].
  destruct (String.eqb format_type "markdown"); [eauto|].
  destruct (String.eqb format_type "html"); [|eauto].
  unfold _format_html.
  assert (Hs : Forall (dated_from cutoff) (newest_first releases)).
  { rewrite Forall_forall in *. intros g Hg. apply H.
    exact (Permutation_in _ (sort_desc_perm sort_key releases) Hg). }
  destruct (html_range_returns strftime now self cutoff _ Hs) as [range Hr].
  rewrite Hr. eauto.
Qed.

Lemma render_text (self : Scraper) (releases : list Group.t) :
  render self releases "text"
  = Return (_format_text soup_text strftime now self releases).
Proof. reflexivity. Qed.

Lemma render_markdown (self : Scraper) (releases : list Group.t) :
  render self releases "markdown"
  = Return (_format_markdown soup_text strftime now self releases).
Proof. reflexivity. Qed.

Lemma render_json (self : Scraper) (releases : list Group.t) :
  render self releases "json"
  = Return (_format_json soup_text isoformat json_dumps now self releases).
Proof. reflexivity. Qed.

Lemma render_html (self : Scraper) (releases : list Group.t) :
  render self releases "html"
  = _format_html strftime now stylesheet self releases.
Proof. reflexivity. Qed.

(** C9. When the fetch or the extraction raises, [scrape] returns the empty
    collection, whatever the object holds by then; the renderer of the chosen
    format returns its no-results document; the run prints or saves that
    document and exits with status 0.  A transport error is such a raise.
    When the output file cannot be written, the exit status is 1. *)
Theorem failed_scrape_exits_zero_unwritable_file_exits_one :
  (forall (args : Args) (world : World) (self failed : Scraper)
          (log : list call) (e : exn),
      packages_installed world = true ->
      __init__ (clock world) (arg_url args) (arg_months args) = Return self ->
      scrape_body (page world) self = (failed, log, Raise e) ->
      scrape (page world) self = (failed, log, Return [])
      /\ exists document,
           render failed [] (arg_output args) = Return document
           /\ (arg_output args = "text" ->
               exists header,
                 document
                 = join nl (header
                            ++ ["No releases found in the specified time range."]))
           /\ (arg_output args = "markdown" ->
               exists header,
                 document
                 = join nl (header
                            ++ ["*No releases found in the specified time range.*"]))
           /\ (arg_output args = "json" ->
               exists metadata,
                 document
                 = json_dumps
                     (JObj [("metadata", metadata);
                            ("statistics",
                             JObj [("total_releases", JInt 0);
                                   ("total_items", JInt 0)]);
                            ("releases", JArr [])]))
           /\ (arg_output args = "html" ->
               exists before after,
                 document = join nl (before ++ no_results failed ++ after))
           /\ (text_given (arg_file args) = false ->
               run args world = mkRun (Some document) None (Exit 0))
           /\ (text_given (arg_file args) = true ->
               write world = Return tt ->
               run args world = mkRun None (Some document) (Exit 0)))
  /\ (forall (e : exn) (self : Scraper),
         scrape_body (Raise e) self = (self, [], Raise e))
  /\ (forall (args : Args) (world : World) (self : Scraper),
         packages_installed world = true ->
         __init__ (clock world) (arg_url args) (arg_months args) = Return self ->
         text_given (arg_file args) = true ->
         write world = Raise IOError ->
         ended (run args world) = Exit 1
         /\ exit_status (ended (run args world)) <> 0%Z).
Proof.
  split; [|split].
  - intros args world self failed log e Hinst Hinit Hbody.
    pose proof (scrape_body_raises _ _ _ _ _ Hbody) as Hscrape.
    split; [exact Hscrape|].
    destruct (render_returns failed 0 [] (arg_output args) (Forall_nil _))
      as [document Hdoc].
    exists document. split; [exact Hdoc|].
    split; [|split; [|split; [|split; [|split]]]].
    + intro F. rewrite F, render_text in Hdoc.
      assert (E : document = _format_text soup_text strftime now failed [])
        by congruence.
      rewrite E. unfold _format_text. eexists. reflexivity.
    + intro F. rewrite F, render_markdown in Hdoc.
      assert (E : document = _format_markdown soup_text strftime now failed [])
        by congruence.
      rewrite E. unfold _format_markdown. eexists. reflexivity.
    + intro F. rewrite F, render_json in Hdoc.
      assert (E : document
                  = _format_json soup_text isoformat json_dumps now failed [])
        by congruence.
      rewrite E. unfold _format_json, json_output. eexists. reflexivity.
    + intro F. rewrite F, render_html in Hdoc.
      assert (E : _format_html strftime now stylesheet failed []
                  = Return (join nl
                      (html_head strftime now stylesheet failed
                       ++ no_results failed
                       ++ [q "    <div class='stats'>";
                           "        <h2>Summary Statistics</h2>";
                           ("        <p><strong>Total Releases:</strong> "
                              ++ str 0 ++ "</p>")%string;
                           ("        <p><strong>Total Items:</strong> "
                              ++ str 0 ++ "</p>")%string;
                           ("        <p><strong>Search Range:</strong> "
                              ++ strftime (cutoff_date failed) "%Y-%m-%d"
                              ++ " to " ++ strftime (now 1%nat) "%Y-%m-%d"
                              ++ "</p>")%string]
                       ++ html_foot failed)))
        by reflexivity.
      rewrite E in Hdoc.
      exists (html_head strftime now stylesheet failed). eexists.
      injection Hdoc as <-. reflexivity.
    + intro Hfile. unfold main.
      rewrite Hinst, Hinit, Hscrape. simpl negb. cbv iota.
      rewrite Hdoc, Hfile. reflexivity.
    + intros Hfile Hwrite. unfold main.
      rewrite Hinst, Hinit, Hscrape. simpl negb. cbv iota.
      rewrite Hdoc, Hfile, Hwrite. reflexivity.
  - intros e self. reflexivity.
  - intros args world self Hinst Hinit Hfile Hwrite.
    destruct (scrape_returns_dated (page world) self)
      as [self' [log [kept [Hscrape Hdated]]]].
    destruct (render_returns self' _ kept (arg_output args) Hdated)
      as [document Hdoc].
    assert (E : ended (run args world) = Exit 1).
    { unfold main.
      rewrite Hinst, Hinit, Hscrape. simpl negb. cbv iota.
      rewrite Hdoc, Hfile, Hwrite. reflexivity. }
    split; [exact E|]. rewrite E. simpl. discriminate.
Qed.

End Failures.

Lemma failed_scrape_exits_zero_unwritable_file_exits_one_witness :
  let run := main (fun s => s) (fun _ _ => "2024-06-01"%string)
               (fun _ => "2024-06-01T12:00:00"%string) (fun _ => "{}"%string)
               (fun _ => Sample.noon) [] in
  packages_installed Sample.fetch_fails = true
  /\ __init__ (clock Sample.fetch_fails) (arg_url Sample.to_stdout)
       (arg_months Sample.to_stdout) = Return Sample.scraper
  /\ scrape_body (page Sample.fetch_fails) Sample.scraper
     = (Sample.scraper, [], Raise RequestException)
  /\ scrape (page Sample.fetch_fails) Sample.scraper
     = (Sample.scraper, [], Return [])
  /\ (exists document,
         run Sample.to_stdout Sample.fetch_fails
         = mkRun (Some document) None (Exit 0))
  /\ text_given (arg_file Sample.to_file) = true
  /\ write Sample.disk_full = Raise IOError
  /\ ended (run Sample.to_file Sample.disk_full) = Exit 1.
Proof.
  intro run.
  destruct (failed_scrape_exits_zero_unwritable_file_exits_one
              (fun s => s) (fun _ _ => "2024-06-01"%string)
              (fun _ => "2024-06-01T12:00:00"%string) (fun _ => "{}"%string)
              (fun _ => Sample.noon) [])
    as [Hsoft [Hraise Hwrite]].
  assert (Hinit : __init__ (clock Sample.fetch_fails) (arg_url Sample.to_stdout)
                    (arg_months Sample.to_stdout) = Return Sample.scraper)
    by (vm_compute; reflexivity).
  destruct (Hsoft Sample.to_stdout Sample.fetch_fails Sample.scraper
              Sample.scraper [] RequestException eq_refl Hinit
              (Hraise RequestException Sample.scraper))
    as [Hscrape [document [_ [_ [_ [_ [_ [Hprinted _]]]]]]]].
  split; [reflexivity|]. split; [exact Hinit|].
  split; [exact (Hraise RequestException Sample.scraper)|].
  split; [exact Hscrape|].
  split; [exists document; exact (Hprinted eq_refl)|].
  split; [reflexivity|]. split; [reflexivity|].
  exact (proj1 (Hwrite Sample.to_file Sample.disk_full Sample.scraper
                  eq_refl Hinit eq_refl eq_refl)).
Defined.

(** * Further properties of the code *)

(** ** The categorizer's labels *)

Lemma first_hit_label (rules : list (string * list string)) (text_lower : string) :
  In (first_hit rules text_lower) (map fst rules ++ ["update"]).
Proof.
  induction rules as [|[label terms] rules IH]; simpl.
  - auto.
  - destruct (any_in terms text_lower); auto.
Qed.

Lemma categorize_label (element : option Element) (text : option string) :
  In (_categorize_item element text) categories.
Proof.
  destruct (hint_category element) as [c|] eqn:H.
  - rewrite (categorize_by_hint _ _ H).
    destruct element as [e|]; simpl in H; [|discriminate].
    destruct (feature_role e).
    + injection H as <-.
      destruct (contains "(Preview)" (get_text e) || contains "(preview)" (get_text e));
        simpl; auto 12.
    + simpl in H.
      repeat match type of H with
             | (if ?b then _ else _) = _ => destruct b
             end;
        try discriminate; injection H as <-; simpl; auto 12.
  - rewrite (categorize_without_hint _ _ H), text_analysis_cascade.
    destruct (truthy (effective_text element text)).
    + exact (first_hit_label keyword_rules _).
    + simpl; auto 12.
Qed.


(** ** Dates the recognizer returns *)

Lemma strptime_valid (data_string format : string) (d : datetime) :
  strptime data_string format = Return d ->
  check_date_fields (year d) (month d) (day d) = true /\ time_of_day d = 0%Z.
Proof.
  unfold strptime.
  destruct (format_regex _) as [r|]; [|discriminate].
  destruct (re_match _ _ _) as [[caps rest]|]; [|discriminate].
  destruct rest; [|discriminate].
  destruct (check_date_fields _ _ _) eqn:E; [|discriminate].
  intro H. injection H as <-. simpl. auto.
Qed.

Lemma try_formats_valid (s : string) (fmts : list string) (d : datetime) :
  try_formats s fmts = Return (Some d) ->
  check_date_fields (year d) (month d) (day d) = true /\ time_of_day d = 0%Z.
Proof.
  induction fmts as [|fmt fmts IH]; simpl; [discriminate|].
  destruct (strptime s fmt) as [d'|e] eqn:E.
  - intro H. injection H as <-. exact (strptime_valid _ _ _ E).
  - destruct e; try discriminate. exact IH.
Qed.

(** X2. A date [_parse_date] returns is a date of the calendar, at midnight:
    the year is in 1..9999, the month in 1..12, the day in 1..the length of
    that month in that year (29 for February in leap years only). *)
Theorem parsed_date_is_calendar_date (date_str : string) (d : datetime) :
  _parse_date date_str = Return (Some d) ->
  (1 <= year d <= 9999)%Z
  /\ (1 <= month d <= 12)%Z
  /\ (1 <= day d <= days_in_month (year d) (month d))%Z
  /\ (days_in_month (year d) (month d) <= 31)%Z
  /\ (month d = 2%Z ->
      (day d <= 29)%Z /\ (day d = 29%Z -> is_leap (year d) = true))
  /\ time_of_day d = 0%Z.
Proof.
  intro H. destruct (try_formats_valid _ _ _ H) as [Hc Ht].
  unfold check_date_fields in Hc.
  apply andb_true_iff in Hc. destruct Hc as [Hc Hd2].
  apply andb_true_iff in Hc. destruct Hc as [Hc Hd1].
  apply andb_true_iff in Hc. destruct Hc as [Hc Hm2].
  apply andb_true_iff in Hc. destruct Hc as [Hc Hm1].
  apply andb_true_iff in Hc. destruct Hc as [Hy1 Hy2].
  apply Z.leb_le in Hy1, Hy2, Hm1, Hm2, Hd1, Hd2.
  assert (Hdim : (days_in_month (year d) (month d) <= 31)%Z).
  { unfold days_in_month.
    destruct (month d =? 2)%Z; [destruct (is_leap (year d)); lia|].
    destruct ((month d =? 4) || (month d =? 6) || (month d =? 9)
              || (month d =? 11))%Z; lia. }
  split; [lia|]. split; [lia|]. split; [lia|]. split; [exact Hdim|].
  split; [|exact Ht].
  intro Hfeb. unfold days_in_month in Hd2. rewrite Hfeb in Hd2. simpl in Hd2.
  destruct (is_leap (year d)); (split; [lia | intro; try reflexivity; lia]).
Qed.

Lemma parsed_date_is_calendar_date_witness :
  _parse_date "February 29, 2024" = Return (Some (midnight 2024 2 29))
  /\ (1 <= 2024 <= 9999)%Z
  /\ (1 <= 2 <= 12)%Z
  /\ (1 <= 29 <= days_in_month 2024 2)%Z
  /\ (days_in_month 2024 2 <= 31)%Z
  /\ (2 = 2 -> (29 <= 29)%Z /\ (29 = 29 -> is_leap 2024 = true))%Z
  /\ 0%Z = 0%Z.
Proof.
  split; [vm_compute; reflexivity|].
  apply (parsed_date_is_calendar_date "February 29, 2024" (midnight 2024 2 29)).
  vm_compute. reflexivity.
Defined.

Lemma lstrip_blanks (ws l : list ascii) :
  Forall (fun c => isspace c = true) ws ->
  lstrip_chars (ws ++ l) = lstrip_chars l.
Proof.
  induction 1 as [|c ws Hc _ IH]; simpl; [reflexivity|].
  rewrite Hc. exact IH.
Qed.

Lemma lstrip_all_blanks (ws : list ascii) :
  Forall (fun c => isspace c = true) ws -> lstrip_chars ws = [].
Proof.
  intro H. rewrite <- (app_nil_r ws), (lstrip_blanks ws [] H). reflexivity.
Qed.

Lemma lstrip_before_blanks (l ws : list ascii) :
  Forall (fun c => isspace c = true) ws ->
  lstrip_chars (l ++ ws)
  = match lstrip_chars l with
    | [] => []
    | m => m ++ ws
    end.
Proof.
  intro H. induction l as [|c l IH]; simpl.
  - apply lstrip_all_blanks. exact H.
  - destruct (isspace c); [exact IH | reflexivity].
Qed.

Lemma strip_chars_blanks (before l after : list ascii) :
  Forall (fun c => isspace c = true) before ->
  Forall (fun c => isspace c = true) after ->
  strip_chars (before ++ l ++ after) = strip_chars l.
Proof.
  intros Hb Ha. unfold strip_chars.
  rewrite (lstrip_blanks before _ Hb), (lstrip_before_blanks l after Ha).
  destruct (lstrip_chars l) as [|c m] eqn:E; [reflexivity|].
  rewrite rev_app_distr, lstrip_blanks; [reflexivity|].
  apply Forall_rev. exact Ha.
Qed.

Lemma list_ascii_of_string_app (a b : string) :
  list_ascii_of_string (a ++ b)%string
  = list_ascii_of_string a ++ list_ascii_of_string b.
Proof. induction a as [|c a IH]; simpl; [|rewrite IH]; reflexivity. Qed.

(** X3. Blanks before and after the date do not change what [_parse_date]
    returns. *)
Theorem parse_date_ignores_surrounding_blanks (before date_str after : string) :
  blank before -> blank after ->
  _parse_date (before ++ date_str ++ after)%string = _parse_date date_str.
Proof.
  intros Hb Ha. unfold _parse_date, strip.
  rewrite !list_ascii_of_string_app, (strip_chars_blanks _ _ _ Hb Ha).
  reflexivity.
Qed.

Lemma parse_date_ignores_surrounding_blanks_witness :
  blank "  " /\ blank " "
  /\ _parse_date ("  " ++ "Jan 15, 2024" ++ " ")%string = _parse_date "Jan 15, 2024".
Proof.
  assert (H1 : blank "  ") by (repeat constructor).
  assert (H2 : blank " ") by (repeat constructor).
  split; [exact H1|]. split; [exact H2|].
  exact (parse_date_ignores_surrounding_blanks "  " "Jan 15, 2024" " " H1 H2).
Defined.

(** ** Building the scraper *)



(** ** Invariants of the extractors *)

Section Triples.

Variable I : Scraper -> Prop.

Lemma triple_ret {A : Type} (a : A) (Q : A -> Prop) :
  Q a -> triple I (ret a) Q.
Proof.
  intros HQ self self' log r HI H. inversion H; subst.
  split; [exact HI|]. intros b Hb. injection Hb as <-. exact HQ.
Qed.

Lemma triple_lift {A : Type} (o : outcome A) (Q : A -> Prop) :
  (forall a, o = Return a -> Q a) -> triple I (lift o) Q.
Proof.
  intros HQ self self' log r HI H. inversion H; subst. auto.
Qed.

Lemma triple_get : triple I get I.
Proof.
  intros self self' log r HI H. inversion H; subst.
  split; [exact HI|]. intros b Hb. injection Hb as <-. exact HI.
Qed.

Lemma triple_enter (c : call) : triple I (enter c) (fun _ => True).
Proof. intros self self' log r HI H. inversion H; subst. auto. Qed.

Lemma triple_append (g : Group.t) :
  (forall self, I self -> I (set_releases self (releases self ++ [g]))) ->
  triple I (append_release g) (fun _ => True).
Proof.
  intros Hg self self' log r HI H. inversion H; subst. auto.
Qed.

Lemma triple_bind {A B : Type} (m : M A) (k : A -> M B)
  (Q : A -> Prop) (R : B -> Prop) :
  triple I m Q -> (forall a, Q a -> triple I (k a) R) -> triple I (bind m k) R.
Proof.
  intros Hm Hk self self' log r HI H.
  destruct (bind_inv _ _ _ _ _ _ H)
    as [[s1 [l1 [a [l2 [E1 [E2 _]]]]]]|[e [E1 ->]]].
  - destruct (Hm _ _ _ _ HI E1) as [HI1 HQ].
    exact (Hk a (HQ a eq_refl) _ _ _ _ HI1 E2).
  - split; [exact (proj1 (Hm _ _ _ _ HI E1)) | discriminate].
Qed.

Lemma triple_weaken {A : Type} (m : M A) (Q Q' : A -> Prop) :
  (forall a, Q a -> Q' a) -> triple I m Q -> triple I m Q'.
Proof.
  intros Himp Hm self self' log r HI H.
  destruct (Hm _ _ _ _ HI H) as [HI' HQ]. split; auto.
Qed.

Lemma triple_for_each {A : Type} (xs : list A) (body : A -> M unit) :
  (forall x, triple I (body x) (fun _ => True)) ->
  triple I (for_each xs body) (fun _ => True).
Proof.
  intro Hbody. induction xs as [|x xs IH]; simpl.
  - apply triple_ret. exact Logic.I.
  - apply triple_bind with (Q := fun _ => True); [apply Hbody | intros _ _; exact IH].
Qed.

Lemma triple_try {A : Type} (body : M A) (handler : exn -> M A) (Q : A -> Prop) :
  triple I body Q -> (forall e, triple I (handler e) Q) ->
  triple I (try_except body handler) Q.
Proof.
  intros Hb Hh self self' log r HI H. unfold try_except in H.
  destruct (body self) as [[s1 l1] [a|e]] eqn:E.
  - inversion H; subst. exact (Hb _ _ _ _ HI E).
  - destruct (handler e s1) as [[s2 l2] r2] eqn:E2. inversion H; subst.
    exact (Hh e _ _ _ _ (proj1 (Hb _ _ _ _ HI E)) E2).
Qed.

Lemma triple_parse_date (date_str : string) :
  triple I (lift (_parse_date date_str))
    (fun r => _parse_date date_str = Return r).
Proof. apply triple_lift. auto. Qed.

End Triples.

Lemma walk_step_labels (sibling : Element) :
  Forall (fun item => In (Item.category item) categories) (walk_step sibling).
Proof.
  unfold walk_step, role_branch, list_branch, block_branch, make_item.
  repeat match goal with
         | |- context [if ?b then _ else _] => destruct b
         end;
    try (constructor; [apply categorize_label | constructor]);
    try constructor.
  apply Forall_flat_map. apply Forall_forall. intros li _.
  destruct (truthy (get_text li)); constructor;
    [apply categorize_label | constructor].
Qed.

Lemma walk_labels (selectors : Selectors) (siblings : list Element)
  (items : list Item.t) :
  Forall (fun item => In (Item.category item) categories) items ->
  Forall (fun item => In (Item.category item) categories)
    (walk selectors siblings items).
Proof.
  revert items. induction siblings as [|x siblings IH]; intros items H; simpl.
  - exact H.
  - destruct (mem (name x) (date_headers selectors)); [exact H|].
    apply IH. apply Forall_app. split; [exact H | apply walk_step_labels].
Qed.

Lemma triple_header_patterns (I : Scraper -> Prop) (selectors : Selectors)
  (header : Header) (patterns : list regex) :
  admits_structured I ->
  triple I (header_patterns selectors header patterns) (fun _ => True).
Proof.
  intro HI. induction patterns as [|pattern patterns IH]; simpl.
  - apply triple_ret. exact Logic.I.
  - destruct (search_group1 pattern (header_text header)) as [date_str|];
      [|exact IH].
    eapply triple_bind; [apply triple_parse_date|].
    intros [d|] Hparse; [|exact IH].
    destruct (walk selectors (next_siblings header) []) as [|i items] eqn:E.
    + apply triple_ret. exact Logic.I.
    + intros self self' log r Hself H.
      unfold bind, get, append_release in H. inversion H; subst.
      split; [|auto].
      apply HI; [exact Hself | exact Hparse | discriminate |].
      rewrite <- E. apply walk_labels. constructor.
Qed.

Lemma triple_structured (I : Scraper -> Prop) (content_area : ContentArea)
  (selectors : Selectors) :
  admits_structured I ->
  triple I (_parse_structured_releases content_area selectors) (fun _ => True).
Proof.
  intro HI. unfold _parse_structured_releases.
  eapply triple_bind; [apply triple_enter|]. intros _ _.
  apply triple_for_each. intro header_tag.
  apply triple_for_each. intro header.
  apply triple_header_patterns. exact HI.
Qed.

Section Fallback.

Variable cutoff : Z.
Variable I : Scraper -> Prop.
Hypothesis fallback : admits_fallback cutoff I.

Lemma triple_emit (e : Element) (d : datetime) (date_str : string) :
  _parse_date date_str = Return (Some d) ->
  (cutoff <= timestamp d)%Z ->
  triple I (emit e d date_str) (fun _ => True).
Proof.
  intros Hparse Hwin. unfold emit.
  destruct (truthy (get_text e) && (20 <? len (get_text e))%Z);
    [|apply triple_ret; exact Logic.I].
  intros self self' log r HI H. unfold bind, get in H.
  destruct (negb (scan_releases (releases self) (markup e) false)).
  - unfold append_release in H. inversion H; subst. split; [|auto].
    apply (proj2 fallback); assumption.
  - inversion H; subst. auto.
Qed.

Lemma triple_date_near (patterns : list regex) (elems : list (option string)) :
  triple I (date_near patterns elems)
    (fun found => match found with
                  | Some (d, date_str) => _parse_date date_str = Return (Some d)
                  | None => True
                  end).
Proof.
  induction elems as [|[text|] elems IH]; simpl.
  - apply triple_ret. exact Logic.I.
  - destruct (first_match patterns text) as [date_str|]; [|exact IH].
    eapply triple_bind; [apply triple_parse_date|].
    intros [d|] Hparse; [apply triple_ret; exact Hparse | exact IH].
  - exact IH.
Qed.

Lemma triple_marked_div (selectors : Selectors) (d : RoleDiv) :
  triple I (marked_div selectors d) (fun _ => True).
Proof.
  unfold marked_div.
  eapply triple_bind; [apply triple_date_near|]. intros found Hfound.
  eapply triple_bind; [apply triple_get|]. intros self0 Hself0.
  destruct found as [[date_found date_str]|]; [|apply triple_ret; exact Logic.I].
  destruct (cutoff_date self0 <=? timestamp date_found)%Z eqn:E;
    [|apply triple_ret; exact Logic.I].
  apply triple_emit; [exact Hfound|].
  apply Z.leb_le in E. rewrite (proj1 fallback _ Hself0) in E. exact E.
Qed.

Lemma triple_dated_text (node : TextNode) (date_match : string) :
  triple I (dated_text node date_match) (fun _ => True).
Proof.
  unfold dated_text.
  eapply triple_bind; [apply triple_parse_date|]. intros parsed Hparse.
  eapply triple_bind; [apply triple_get|]. intros self0 Hself0.
  destruct parsed as [d|]; [|apply triple_ret; exact Logic.I].
  destruct (cutoff_date self0 <=? timestamp d)%Z eqn:E;
    [|apply triple_ret; exact Logic.I].
  eapply triple_bind; [apply triple_lift with (Q := fun _ => True); auto|].
  intros [p|] _; [|apply triple_ret; exact Logic.I].
  destruct (negb (mem (name p) ["script"; "style"]));
    [|apply triple_ret; exact Logic.I].
  apply triple_emit; [exact Hparse|].
  apply Z.leb_le in E. rewrite (proj1 fallback _ Hself0) in E. exact E.
Qed.

Lemma triple_unstructured (content_area : ContentArea) (selectors : Selectors) :
  triple I (_parse_unstructured_releases content_area selectors)
    (fun _ => True).
Proof.
  unfold _parse_unstructured_releases.
  eapply triple_bind; [apply triple_enter|]. intros _ _.
  eapply triple_bind.
  - apply triple_for_each. intro. apply triple_marked_div.
  - intros _ _. apply triple_for_each. intro node. unfold text_node.
    destruct (negb (truthy (strip (node_text node))));
      [apply triple_ret; exact Logic.I|].
    apply triple_for_each. intro. apply triple_for_each. intro.
    apply triple_dated_text.
Qed.

Hypothesis structured : admits_structured I.

Lemma triple_scrape (page : outcome ContentArea) :
  triple I (scrape page) (fun _ => True).
Proof.
  unfold scrape. apply triple_try.
  - unfold scrape_body.
    eapply triple_bind; [apply triple_lift with (Q := fun _ => True); auto|].
    intros content_area _.
    eapply triple_bind; [apply triple_get|]. intros self0 _.
    eapply triple_bind; [apply triple_structured; exact structured|].
    intros _ _.
    eapply triple_bind; [apply triple_get|]. intros self1 _.
    eapply triple_bind.
    + instantiate (1 := fun _ => True).
      destruct (releases self1);
        [apply triple_unstructured | apply triple_ret; exact Logic.I].
    + intros _ _.
      eapply triple_bind; [apply triple_get|]. intros self2 _.
      apply triple_ret. exact Logic.I.
  - intro e. destruct e; apply triple_ret; exact Logic.I.
Qed.

End Fallback.

Lemma run_eta (A : Type) (x : Scraper * list call * outcome A) :
  x = (fst (fst x), snd (fst x), snd x).
Proof. destruct x as [[s l] r]. reflexivity. Qed.

(** X5. The walk from a header collects what each sibling before the next
    header tag gives, in order, and nothing from that tag on: the items of a
    group never come from the section of another header. *)
Theorem walk_stops_at_next_header (selectors : Selectors)
  (before : list Element) (boundary : Element) (after : list Element)
  (items : list Item.t) :
  (forall x, In x before -> mem (name x) (date_headers selectors) = false) ->
  mem (name boundary) (date_headers selectors) = true ->
  walk selectors (before ++ boundary :: after) items
  = items ++ flat_map walk_step before
  /\ walk selectors before items = items ++ flat_map walk_step before.
Proof.
  intros Hbefore Hboundary. split.
  - rewrite (walk_app selectors before (boundary :: after) items Hbefore).
    simpl. rewrite Hboundary. reflexivity.
  - rewrite <- (app_nil_r before) at 1.
    rewrite (walk_app selectors before [] items Hbefore). reflexivity.
Qed.

Lemma walk_stops_at_next_header_witness :
  let h2 := mkElement "h2" [] "<h2>January 5, 2024</h2>" "January 5, 2024" [] [] in
  let selectors := PLATFORM_SELECTORS "google_cloud" in
  walk selectors ([Sample.paragraph] ++ h2 :: [Sample.bullets]) []
  = [] ++ flat_map walk_step [Sample.paragraph]
  /\ walk selectors [Sample.paragraph] [] = [] ++ flat_map walk_step [Sample.paragraph].
Proof.
  intros h2 selectors.
  apply (walk_stops_at_next_header selectors [Sample.paragraph] h2
           [Sample.bullets] []).
  - intros x [<-|[]]. reflexivity.
  - reflexivity.
Defined.

Lemma scrape_result_incl (page : outcome ContentArea) (self self' : Scraper)
  (log : list call) (kept : list Group.t) :
  scrape page self = (self', log, Return kept) ->
  kept = filter (in_window (cutoff_date self')) (releases self') \/ kept = [].
Proof.
  intro H.
  destruct (scrape_body page self) as [[s1 l1] [kept'|e]] eqn:E.
  - left. unfold scrape, try_except in H. rewrite E in H. inversion H; subst.
    exact (proj1 (scrape_body_returns_window _ _ _ _ _ E)).
  - right. rewrite (scrape_body_raises _ _ _ _ _ E) in H.
    inversion H; reflexivity.
Qed.

Lemma single_item_labels (e : Element) (text : string) :
  Forall (fun item => In (Item.category item) categories) [make_item e text].
Proof. constructor; [apply categorize_label | constructor]. Qed.

(** X6. [scrape] keeps the collection well formed: from a collection of
    groups that carry the scraper's URL, have an item, a date that is the
    parse of their date string, and labels of the closed set, it leaves such
    a collection, and returns such groups, whatever the page and whether the
    extraction returned or raised. *)
Theorem scrape_groups_well_formed (page : outcome ContentArea)
  (self self' : Scraper) (log : list call) (r : outcome (list Group.t)) :
  Forall (well_formed (url self)) (releases self) ->
  scrape page self = (self', log, r) ->
  url self' = url self
  /\ Forall (well_formed (url self)) (releases self')
  /\ forall kept, r = Return kept -> Forall (well_formed (url self)) kept.
Proof.
  intros Hwf H.
  pose (I := fun s : Scraper =>
               url s = url self /\ cutoff_date s = cutoff_date self
               /\ Forall (well_formed (url self)) (releases s)).
  assert (Hs : admits_structured I).
  { intros s d date_str items [Hu [Hc Hf]] Hparse Hne Hlab.
    split; [exact Hu|]. split; [exact Hc|]. simpl.
    apply Forall_app. split; [exact Hf|].
    constructor; [|constructor].
    split; [exact Hu|]. split; [exact Hne|]. split; [|exact Hlab].
    exists d. auto. }
  assert (Hf : admits_fallback (cutoff_date self) I).
  { split; [intros s [_ [Hc _]]; exact Hc|].
    intros s e d date_str [Hu [Hc Hf]] Hparse _.
    split; [exact Hu|]. split; [exact Hc|]. simpl.
    apply Forall_app. split; [exact Hf|].
    constructor; [|constructor].
    split; [exact Hu|]. split; [discriminate|].
    split; [exists d; auto | apply single_item_labels]. }
  destruct (triple_scrape (cutoff_date self) I Hf Hs page _ _ _ _
              (conj eq_refl (conj eq_refl Hwf)) H) as [[Hu [_ Hall]] _].
  split; [exact Hu|]. split; [exact Hall|].
  intros kept ->.
  destruct (scrape_result_incl _ _ _ _ _ H) as [->| ->]; [|constructor].
  rewrite Forall_forall in *. intros g Hg. apply filter_In in Hg.
  apply Hall. exact (proj1 Hg).
Qed.

Lemma scrape_groups_well_formed_witness :
  let run := scrape (Return Sample.dated_page) Sample.scraper in
  url (fst (fst run)) = url Sample.scraper
  /\ Forall (well_formed (url Sample.scraper)) (releases (fst (fst run)))
  /\ forall kept, snd run = Return kept ->
                  Forall (well_formed (url Sample.scraper)) kept.
Proof.
  intro run.
  apply (scrape_groups_well_formed (Return Sample.dated_page) Sample.scraper
           (fst (fst run)) (snd (fst run)) (snd run)).
  - constructor.
  - apply run_eta.
Defined.

Lemma filter_all (A : Type) (f : A -> bool) (l : list A) :
  Forall (fun x => f x = true) l -> filter f l = l.
Proof.
  induction 1 as [|x l Hx _ IH]; simpl; [reflexivity|].
  rewrite Hx, IH. reflexivity.
Qed.

(** X7. The unstructured extractor builds groups of one item, dated in the
    window: from a collection of such groups it leaves one, whether it
    returns or raises, so the date filter of [scrape] then removes nothing. *)
Theorem fallback_groups_single_item_in_window (content_area : ContentArea)
  (selectors : Selectors) (self self' : Scraper) (log : list call)
  (r : outcome unit) :
  Forall (fallback_group (url self) (cutoff_date self)) (releases self) ->
  _parse_unstructured_releases content_area selectors self = (self', log, r) ->
  Forall (fallback_group (url self) (cutoff_date self)) (releases self')
  /\ filter (in_window (cutoff_date self')) (releases self') = releases self'.
Proof.
  intros Hfb H.
  pose (I := fun s : Scraper =>
               url s = url self /\ cutoff_date s = cutoff_date self
               /\ Forall (fallback_group (url self) (cutoff_date self))
                    (releases s)).
  assert (Hf : admits_fallback (cutoff_date self) I).
  { split; [intros s [_ [Hc _]]; exact Hc|].
    intros s e d date_str [Hu [Hc Hall]] Hparse Hwin.
    split; [exact Hu|]. split; [exact Hc|]. simpl.
    apply Forall_app. split; [exact Hall|].
    constructor; [|constructor].
    split; [|split].
    - split; [exact Hu|]. split; [discriminate|].
      split; [exists d; auto | apply single_item_labels].
    - eexists. reflexivity.
    - unfold in_window. simpl. apply Z.leb_le. exact Hwin. }
  destruct (triple_unstructured (cutoff_date self) I Hf content_area selectors
              _ _ _ _ (conj eq_refl (conj eq_refl Hfb)) H)
    as [[_ [Hc Hall]] _].
  split; [exact Hall|].
  apply filter_all. rewrite Hc.
  rewrite Forall_forall in *. intros g Hg. exact (proj2 (proj2 (Hall g Hg))).
Qed.

Lemma fallback_groups_single_item_in_window_witness :
  let run := _parse_unstructured_releases Sample.undated_page
               (PLATFORM_SELECTORS "google_cloud") Sample.scraper in
  Forall (fallback_group (url Sample.scraper) (cutoff_date Sample.scraper))
    (releases (fst (fst run)))
  /\ filter (in_window (cutoff_date (fst (fst run)))) (releases (fst (fst run)))
     = releases (fst (fst run)).
Proof.
  intro run.
  apply (fallback_groups_single_item_in_window Sample.undated_page
           (PLATFORM_SELECTORS "google_cloud") Sample.scraper
           (fst (fst run)) (snd (fst run)) (snd run)).
  - constructor.
  - apply run_eta.
Defined.

(** X8. [scrape] only appends: whatever the page and however the extraction
    ends, the releases the object held come first in the releases it holds
    afterwards, unchanged and in the same order, and its URL, months, cutoff
    and platform are the same. *)
Theorem scrape_only_appends (page : outcome ContentArea)
  (self self' : Scraper) (log : list call) (r : outcome (list Group.t)) :
  scrape page self = (self', log, r) ->
  same_configuration self self'
  /\ exists added, releases self' = releases self ++ added.
Proof.
  intro H.
  pose (I := fun s : Scraper =>
               same_configuration self s
               /\ exists added, releases s = releases self ++ added).
  assert (Happ : forall s g, I s -> I (set_releases s (releases s ++ [g]))).
  { intros s g [Hc [added Ha]]. split; [exact Hc|].
    exists (added ++ [g]). simpl. rewrite Ha, app_assoc. reflexivity. }
  assert (Hs : admits_structured I) by (intros s d ds items Hs _ _ _; apply Happ, Hs).
  assert (Hf : admits_fallback (cutoff_date self) I).
  { split; [intros s [[_ [_ [Hc _]]] _]; symmetry; exact Hc|].
    intros s e d ds Hs' _ _. apply Happ, Hs'. }
  refine (proj1 (triple_scrape (cutoff_date self) I Hf Hs page _ _ _ _ _ H)).
  split; [repeat split|]. exists []. rewrite app_nil_r. reflexivity.
Qed.

Lemma scrape_only_appends_witness :
  let run := scrape (Return Sample.undated_page) Sample.scraper_with_a in
  same_configuration Sample.scraper_with_a (fst (fst run))
  /\ exists added,
       releases (fst (fst run)) = releases Sample.scraper_with_a ++ added.
Proof.
  intro run.
  apply (scrape_only_appends (Return Sample.undated_page) Sample.scraper_with_a
           (fst (fst run)) (snd (fst run)) (snd run)).
  apply run_eta.
Defined.

(** ** The second pass of the unstructured extractor *)

Lemma for_each_flag {A : Type} (f : A -> bool) (e : exn) (body : A -> M unit)
  (self : Scraper) (xs : list A) :
  (forall x, In x xs ->
             body x self = (self, [], if f x then Raise e else Return tt)) ->
  for_each xs body self
  = (self, [], if existsb f xs then Raise e else Return tt).
Proof.
  induction xs as [|x xs IH]; intro H; simpl; [reflexivity|].
  unfold bind. rewrite (H x (or_introl eq_refl)).
  destruct (f x); simpl; [reflexivity|].
  rewrite IH; [reflexivity|]. intros y Hy. apply H. right. exact Hy.
Qed.

Lemma dated_text_flag (node : TextNode) (e : exn) (date_match : string)
  (self : Scraper) :
  stripped_parent node = Raise e ->
  dated_text node date_match self
  = (self, [],
     if in_window_date (cutoff_date self) date_match then Raise e else Return tt).
Proof.
  intro Hp. unfold dated_text, in_window_date, bind, lift, get.
  destruct (parse_date_returns date_match) as [[d|] ->]; [|reflexivity].
  destruct (cutoff_date self <=? timestamp d)%Z; [|reflexivity].
  rewrite Hp. reflexivity.
Qed.

Lemma text_node_flag (selectors : Selectors) (node : TextNode) (e : exn)
  (self : Scraper) :
  stripped_parent node = Raise e ->
  text_node selectors node self
  = (self, [],
     if node_hits selectors (cutoff_date self) node then Raise e else Return tt).
Proof.
  intro Hp. unfold text_node, node_hits.
  destruct (truthy (strip (node_text node))); simpl; [|reflexivity].
  apply for_each_flag. intros pattern _.
  apply for_each_flag. intros date_match _.
  apply dated_text_flag. exact Hp.
Qed.

Lemma calm_emit (e : Element) (d : datetime) (date_str : string) :
  calm (emit e d date_str).
Proof.
  unfold emit.
  destruct (truthy (get_text e) && (20 <? len (get_text e))%Z);
    [|apply calm_ret].
  intro self. unfold bind, get.
  destruct (negb (scan_releases (releases self) (markup e) false));
    [eexists _, tt | exists self, tt]; reflexivity.
Qed.

Lemma calm_date_near (patterns : list regex) (elems : list (option string)) :
  calm (date_near patterns elems).
Proof.
  induction elems as [|[text|] elems IH]; simpl.
  - apply calm_ret.
  - destruct (first_match patterns text); [|exact IH].
    apply calm_bind; [apply calm_parse_date|].
    intros [d|]; [apply calm_ret | exact IH].
  - exact IH.
Qed.

Lemma calm_first_pass (content_area : ContentArea) (selectors : Selectors) :
  calm (first_pass content_area selectors).
Proof.
  apply calm_for_each. intro d. unfold marked_div.
  apply calm_bind; [apply calm_date_near|]. intro found.
  apply calm_bind; [apply calm_get|]. intro self0.
  destruct found as [[date_found date_str]|]; [|apply calm_ret].
  destruct (cutoff_date self0 <=? timestamp date_found)%Z;
    [apply calm_emit | apply calm_ret].
Qed.

Lemma first_pass_cutoff (content_area : ContentArea) (selectors : Selectors)
  (self self' : Scraper) (log : list call) (r : outcome unit) :
  first_pass content_area selectors self = (self', log, r) ->
  cutoff_date self' = cutoff_date self.
Proof.
  intro H.
  refine (proj1 (keeps_for_each (fun s => cutoff_date s = cutoff_date self)
                   _ _ _ self self' log r eq_refl H)).
  intro d. apply keeps_marked_div. intros s e dt ds Hs _. exact Hs.
Qed.

(** The unstructured extractor on a page whose text nodes are plain strings
    for the second pass: the state is the one the first pass leaves, and the
    extractor raises exactly when a text node has a date in the window. *)
Lemma unstructured_on_plain_str_nodes (content_area : ContentArea)
  (selectors : Selectors) (self : Scraper) :
  plain_str_nodes content_area ->
  exists after_first_pass,
    first_pass content_area selectors self = (after_first_pass, [], Return tt)
    /\ cutoff_date after_first_pass = cutoff_date self
    /\ _parse_unstructured_releases content_area selectors self
       = (after_first_pass, [UnstructuredExtractor],
          if existsb (node_hits selectors (cutoff_date self))
               (text_nodes content_area)
          then Raise AttributeError else Return tt).
Proof.
  intro Hplain.
  destruct (calm_first_pass content_area selectors self) as [s1 [[] E1]].
  pose proof (first_pass_cutoff _ _ _ _ _ _ E1) as Hc.
  exists s1. split; [exact E1|]. split; [exact Hc|].
  unfold _parse_unstructured_releases, bind at 1, enter.
  fold (first_pass content_area selectors).
  unfold bind. rewrite E1.
  rewrite (for_each_flag (node_hits selectors (cutoff_date self))
             AttributeError).
  - reflexivity.
  - intros node Hn. rewrite <- Hc. apply text_node_flag.
    unfold plain_str_nodes in Hplain. rewrite Forall_forall in Hplain.
    exact (Hplain node Hn).
Qed.

(** X9. When [text.parent] raises [AttributeError] on the stripped text of
    every text node, the second pass of the unstructured extractor never
    adds a release: the collection is the one the first pass leaves, and the
    extractor raises [AttributeError] when some text node holds a date in
    the window and returns otherwise. *)
Theorem second_pass_never_emits (content_area : ContentArea)
  (selectors : Selectors) (self : Scraper) :
  plain_str_nodes content_area ->
  exists after_first_pass,
    first_pass content_area selectors self = (after_first_pass, [], Return tt)
    /\ _parse_unstructured_releases content_area selectors self
       = (after_first_pass, [UnstructuredExtractor],
          if existsb (node_hits selectors (cutoff_date self))
               (text_nodes content_area)
          then Raise AttributeError else Return tt).
Proof.
  intro H.
  destruct (unstructured_on_plain_str_nodes content_area selectors self H)
    as [s1 [E1 [_ E2]]].
  exists s1. auto.
Qed.

Lemma second_pass_never_emits_witness :
  plain_str_nodes Sample.undated_page
  /\ exists after_first_pass,
       first_pass Sample.undated_page (PLATFORM_SELECTORS "google_cloud")
         Sample.scraper = (after_first_pass, [], Return tt)
       /\ _parse_unstructured_releases Sample.undated_page
            (PLATFORM_SELECTORS "google_cloud") Sample.scraper
          = (after_first_pass, [UnstructuredExtractor],
             if existsb (node_hits (PLATFORM_SELECTORS "google_cloud")
                           (cutoff_date Sample.scraper))
                  (text_nodes Sample.undated_page)
             then Raise AttributeError else Return tt).
Proof.
  assert (H : plain_str_nodes Sample.undated_page)
    by (repeat constructor).
  split; [exact H|].
  exact (second_pass_never_emits Sample.undated_page
           (PLATFORM_SELECTORS "google_cloud") Sample.scraper H).
Defined.

(** X10. On such a page, when the structured extractor finds no release and
    a text node holds a date in the window, [scrape] returns the empty list:
    the groups of the first pass stay in the object and are not returned. *)
Theorem dated_text_node_empties_scrape (content_area : ContentArea)
  (self structured_state : Scraper) :
  plain_str_nodes content_area ->
  _parse_structured_releases content_area (PLATFORM_SELECTORS (platform self))
      self
    = (structured_state, [StructuredExtractor], Return tt) ->
  releases structured_state = [] ->
  existsb (node_hits (PLATFORM_SELECTORS (platform self)) (cutoff_date self))
    (text_nodes content_area) = true ->
  exists after_first_pass,
    first_pass content_area (PLATFORM_SELECTORS (platform self)) structured_state
      = (after_first_pass, [], Return tt)
    /\ scrape (Return content_area) self
       = (after_first_pass, [StructuredExtractor; UnstructuredExtractor],
          Return []).
Proof.
  intros Hplain Hs Hnone Hhit.
  destruct (unstructured_on_plain_str_nodes content_area
              (PLATFORM_SELECTORS (platform self)) structured_state Hplain)
    as [s2 [E1 [_ E2]]].
  assert (Hc : cutoff_date structured_state = cutoff_date self).
  { destruct (structured_run (fun s => cutoff_date s = cutoff_date self)
                content_area (PLATFORM_SELECTORS (platform self)) self)
      as [s1 [Hs1 Hc]]; [intros ? ? K; exact K | reflexivity |].
    rewrite Hs in Hs1. inversion Hs1; subst. exact Hc. }
  rewrite Hc, Hhit in E2.
  exists s2. split; [exact E1|].
  cbv beta iota zeta delta [scrape try_except scrape_body bind lift get].
  rewrite Hs. cbv iota beta. rewrite Hnone, E2. cbv iota beta.
  rewrite scrape_handler_returns. reflexivity.
Qed.

Lemma dated_text_node_empties_scrape_witness :
  let selectors := PLATFORM_SELECTORS (platform Sample.scraper) in
  plain_str_nodes Sample.dated_div_page
  /\ exists after_first_pass,
       first_pass Sample.dated_div_page selectors Sample.scraper
         = (after_first_pass, [], Return tt)
       /\ scrape (Return Sample.dated_div_page) Sample.scraper
          = (after_first_pass, [StructuredExtractor; UnstructuredExtractor],
             Return []).
Proof.
  intro selectors.
  assert (H : plain_str_nodes Sample.dated_div_page) by (repeat constructor).
  split; [exact H|].
  apply (dated_text_node_empties_scrape Sample.dated_div_page Sample.scraper
           Sample.scraper H).
  - vm_compute. reflexivity.
  - reflexivity.
  - vm_compute. reflexivity.
Defined.

(** ** The sort of the renderers *)

Section SortOrder.

Context {A : Type} (key : A -> Z).

Lemma insert_desc_filter (k : Z) (x : A) (l : list A) :
  filter (fun a => (key a =? k)%Z) (insert_desc key x l)
  = filter (fun a => (key a =? k)%Z) (x :: l).
Proof.
  induction l as [|y l IH]; [reflexivity|].
  simpl insert_desc. destruct (key x <? key y)%Z eqn:E; [|reflexivity].
  apply Z.ltb_lt in E. simpl in *. rewrite IH.
  destruct (key x =? k)%Z eqn:Ex, (key y =? k)%Z eqn:Ey; try reflexivity.
  apply Z.eqb_eq in Ex, Ey. lia.
Qed.

Lemma sort_desc_filter (k : Z) (l : list A) :
  filter (fun a => (key a =? k)%Z) (sort_desc key l)
  = filter (fun a => (key a =? k)%Z) l.
Proof.
  induction l as [|x l IH]; [reflexivity|].
  simpl sort_desc. rewrite insert_desc_filter. simpl. rewrite IH. reflexivity.
Qed.

Lemma insert_desc_head (x : A) (l : list A) :
  Forall (fun y => (key y <= key x)%Z) l -> insert_desc key x l = x :: l.
Proof.
  destruct 1 as [|y l Hy _]; simpl; [reflexivity|].
  assert (E : (key x <? key y)%Z = false) by (apply Z.ltb_ge; exact Hy).
  rewrite E. reflexivity.
Qed.

Lemma sort_desc_sorted_id (l : list A) :
  StronglySorted (fun a b => (key b <= key a)%Z) l -> sort_desc key l = l.
Proof.
  induction 1 as [|x l _ IH Hx]; simpl; [reflexivity|].
  rewrite IH. apply insert_desc_head. exact Hx.
Qed.

End SortOrder.

(** X11. The sort of the renderers is stable and loses nothing: the sorted
    list is a rearrangement of the collection, and the groups of one date
    come in it in the order they have in the collection. *)
Theorem newest_first_is_stable (releases : list Group.t) :
  Permutation (newest_first releases) releases
  /\ forall k : Z,
       filter (fun g => (sort_key g =? k)%Z) (newest_first releases)
       = filter (fun g => (sort_key g =? k)%Z) releases.
Proof.
  split; [apply sort_desc_perm|]. intro k. apply sort_desc_filter.
Qed.

(** X12. Sorting again changes nothing: a renderer that sorts a collection
    already sorted, by itself or by another renderer, walks it in the same
    order. *)
Theorem newest_first_is_idempotent (releases : list Group.t) :
  newest_first (newest_first releases) = newest_first releases
  /\ (StronglySorted (fun a b => (sort_key b <= sort_key a)%Z) releases ->
      newest_first releases = releases).
Proof.
  split.
  - apply sort_desc_sorted_id. apply sort_desc_sorted.
  - apply sort_desc_sorted_id.
Qed.

Lemma newest_first_is_idempotent_witness :
  newest_first (newest_first Sample.kept) = newest_first Sample.kept
  /\ StronglySorted (fun a b => (sort_key b <= sort_key a)%Z) Sample.kept
  /\ newest_first Sample.kept = Sample.kept.
Proof.
  destruct (newest_first_is_idempotent Sample.kept) as [H1 H2].
  assert (Hs : StronglySorted (fun a b => (sort_key b <= sort_key a)%Z)
                 Sample.kept)
    by (repeat constructor).
  split; [exact H1|]. split; [exact Hs | exact (H2 Hs)].
Defined.

(** ** The statistics *)

Lemma category_counts_fold (rs : list Group.t) (counts : list (string * Z)) :
  fold_left (fun counts release =>
               fold_left (fun counts item =>
                            count_category counts (Item.category item))
                         (Group.items release) counts)
            rs counts
  = fold_left count_category (labels rs) counts.
Proof.
  revert counts. induction rs as [|r rs IH]; intro counts; [reflexivity|].
  simpl. rewrite IH. unfold labels at 2. simpl. rewrite fold_left_app.
  fold (labels rs). f_equal.
  generalize counts. induction (Group.items r) as [|i rest IHi]; intro c;
    [reflexivity | simpl; apply IHi].
Qed.

Lemma get_count_step (counts : list (string * Z)) (category k : string) :
  get_count (count_category counts category) k
  = (get_count counts k + if String.eqb category k then 1 else 0)%Z.
Proof.
  induction counts as [|[c n] counts IH]; simpl.
  - destruct (String.eqb category k); lia.
  - destruct (String.eqb c category) eqn:E; simpl.
    + apply String.eqb_eq in E. subst c.
      destruct (String.eqb category k); lia.
    + destruct (String.eqb c k) eqn:Ek; [|exact IH].
      apply String.eqb_eq in Ek. subst c. rewrite String.eqb_sym, E. lia.
Qed.

Lemma counted_step (counts : list (string * Z)) (category : string) :
  counted (count_category counts category) = (counted counts + 1)%Z.
Proof.
  induction counts as [|[c n] counts IH]; simpl; [lia|].
  destruct (String.eqb c category); simpl; [lia | rewrite IH; lia].
Qed.

Lemma keys_step (counts : list (string * Z)) (category : string) :
  (forall k, In k (map fst (count_category counts category)) <->
             k = category \/ In k (map fst counts))
  /\ (NoDup (map fst counts) -> NoDup (map fst (count_category counts category)))
  /\ (Forall (fun cc => (1 <= snd cc)%Z) counts ->
      Forall (fun cc => (1 <= snd cc)%Z) (count_category counts category)).
Proof.
  induction counts as [|[c n] counts [IHk [IHn IHp]]]; simpl.
  - split; [intro k; split; intros [H|H]; auto; contradiction|].
    split; [intros _; constructor; [intros [] | constructor]|].
    intros _. constructor; [simpl; lia | constructor].
  - destruct (String.eqb c category) eqn:E; simpl.
    + apply String.eqb_eq in E. subst c.
      split; [intro k; intuition congruence|]. split; [auto|].
      intro H. inversion H; subst. constructor; [simpl in *; lia | assumption].
    + apply String.eqb_neq in E.
      split; [intro k; rewrite IHk; intuition congruence|]. split.
      * intro H. inversion H as [|? ? Hnotin Hnd]; subst.
        constructor; [|exact (IHn Hnd)].
        rewrite IHk. intros [K|K]; [congruence | contradiction].
      * intro H. inversion H; subst. constructor; [assumption | auto].
Qed.

Lemma fold_counts (ls : list string) (counts : list (string * Z)) :
  let counts' := fold_left count_category ls counts in
  (forall k, get_count counts' k
             = (get_count counts k + Z.of_nat (count_occ string_dec ls k))%Z)
  /\ counted counts' = (counted counts + Z.of_nat (List.length ls))%Z
  /\ (forall k, In k (map fst counts') <-> In k ls \/ In k (map fst counts))
  /\ (NoDup (map fst counts) -> NoDup (map fst counts'))
  /\ (Forall (fun cc => (1 <= snd cc)%Z) counts ->
      Forall (fun cc => (1 <= snd cc)%Z) counts').
Proof.
  revert counts. induction ls as [|l ls IH]; intro counts.
  - simpl. repeat split; try tauto; try lia.
  - simpl fold_left.
    destruct (IH (count_category counts l)) as [Hg [Hc [Hk [Hn Hp]]]].
    destruct (keys_step counts l) as [Sk [Sn Sp]].
    cbv zeta. split; [|split; [|split; [|split]]].
    + intro k. rewrite Hg, get_count_step. simpl count_occ.
      destruct (string_dec l k) as [->|Hne].
      * rewrite String.eqb_refl. lia.
      * apply String.eqb_neq in Hne. rewrite Hne. lia.
    + rewrite Hc, counted_step. simpl List.length. lia.
    + intro k. rewrite Hk, Sk. simpl. split; intro H; intuition congruence.
    + intro H. exact (Hn (Sn H)).
    + intro H. exact (Hp (Sp H)).
Qed.

Lemma total_items_labels (rs : list Group.t) :
  total_items rs = Z.of_nat (List.length (labels rs)).
Proof.
  unfold total_items.
  assert (H : forall n, fold_left
                (fun n r => (n + Z.of_nat (List.length (Group.items r)))%Z) rs n
              = (n + Z.of_nat (List.length (labels rs)))%Z).
  { induction rs as [|r rs IH]; intro n; simpl; [lia|].
    rewrite IH. unfold labels. simpl. rewrite length_app, length_map.
    fold (labels rs). lia. }
  rewrite H. lia.
Qed.

(** X13. The category table of the statistics is the count of the items by
    label: a label has an entry exactly when an item carries it, once, with
    the number of items that carry it, so at least 1; the counts add up to
    the total number of items; and the table is printed by decreasing count,
    every entry once. *)
Theorem category_counts_count_items (releases : list Group.t) :
  (forall label, get_count (category_counts releases) label
                 = occurrences releases label)
  /\ (forall label, In label (map fst (category_counts releases)) <->
                    In label (labels releases))
  /\ NoDup (map fst (category_counts releases))
  /\ Forall (fun cc => (1 <= snd cc)%Z) (category_counts releases)
  /\ counted (category_counts releases) = total_items releases
  /\ Permutation (by_count (category_counts releases)) (category_counts releases)
  /\ StronglySorted (fun a b => (snd b <= snd a)%Z)
       (by_count (category_counts releases)).
Proof.
  unfold category_counts. rewrite category_counts_fold.
  destruct (fold_counts (labels releases) []) as [Hg [Hc [Hk [Hn Hp]]]].
  cbv zeta in *.
  split; [intro label; rewrite Hg; reflexivity|].
  split; [intro label; rewrite Hk; simpl; tauto|].
  split; [apply Hn; constructor|].
  split; [apply Hp; constructor|].
  split; [rewrite Hc, total_items_labels; reflexivity|].
  split; [apply sort_desc_perm | apply (sort_desc_sorted snd)].
Qed.

(** ** What the renderers report *)

Lemma labels_length_perm (l l' : list Group.t) :
  Permutation l l' -> List.length (labels l) = List.length (labels l').
Proof.
  intro H. unfold labels. apply Permutation_length.
  apply Permutation_flat_map. exact H.
Qed.

Section Reports.

Variable soup_text : string -> string.
Variable strftime : Z -> string -> string.
Variable isoformat : Z -> string.
Variable json_dumps : json -> string.
Variable now : nat -> Z.
Variable stylesheet : list string.
Variable self : Scraper.

Lemma items_listed_labels (releases : list Group.t) :
  items_listed (map (json_release soup_text isoformat) releases)
  = List.length (labels releases).
Proof.
  unfold items_listed, labels.
  induction releases as [|r releases IH]; [reflexivity|].
  simpl. rewrite !length_app, IH, !length_map. reflexivity.
Qed.

(** X14. In the document of the JSON renderer the statistics agree with the
    releases listed: [total_releases] is the number of entries of
    [releases], which is the number of groups given, and [total_items] is
    the number of entries of their [items] arrays. *)
Theorem json_statistics_agree (releases : list Group.t) :
  let output := json_output soup_text isoformat now self releases in
  let listed := elements (member "releases" output) in
  List.length listed = List.length releases
  /\ member "total_releases" (member "statistics" output)
     = JInt (Z.of_nat (List.length listed))
  /\ member "total_items" (member "statistics" output)
     = JInt (Z.of_nat (items_listed listed))
  /\ _format_json soup_text isoformat json_dumps now self releases
     = json_dumps output.
Proof.
  intros output listed.
  assert (Hl : listed
               = map (json_release soup_text isoformat) (newest_first releases))
    by reflexivity.
  assert (Hperm : Permutation (newest_first releases) releases)
    by apply sort_desc_perm.
  split; [|split; [|split]].
  - rewrite Hl, length_map. apply Permutation_length. exact Hperm.
  - rewrite Hl, length_map. reflexivity.
  - rewrite Hl, items_listed_labels.
    change (member "total_items" (member "statistics" output))
      with (JInt (total_items (newest_first releases))).
    rewrite total_items_labels. reflexivity.
  - reflexivity.
Qed.

Lemma dates_none (releases : list Group.t) :
  Forall (fun g => Group.date g = None) releases -> dates releases = [].
Proof.
  induction 1 as [|g gs Hg _ IH]; [reflexivity|].
  unfold dates in *. simpl. rewrite Hg, IH. reflexivity.
Qed.

Lemma dates_some (releases : list Group.t) :
  Exists (fun g => Group.date g <> None) releases -> dates releases <> [].
Proof.
  induction 1 as [g gs Hg|g gs _ IH]; unfold dates in *; simpl.
  - destruct (Group.date g); [discriminate | congruence].
  - destruct (Group.date g); [discriminate | exact IH].
Qed.

(** X15. The HTML renderer raises [ValueError] on a collection that is not
    empty and has no dated group, the minimum of no date; on the empty
    collection and on one with a dated group it returns.  The text, Markdown
    and JSON renderers return on every collection. *)
Theorem html_renderer_needs_a_date (releases : list Group.t) :
  (releases <> [] -> Forall (fun g => Group.date g = None) releases ->
   format_output soup_text strftime isoformat json_dumps now stylesheet self
     releases "html" = Raise ValueError)
  /\ (releases = [] \/ Exists (fun g => Group.date g <> None) releases ->
      exists document,
        format_output soup_text strftime isoformat json_dumps now stylesheet
          self releases "html" = Return document)
  /\ (forall format_type, format_type <> "html" ->
      exists document,
        format_output soup_text strftime isoformat json_dumps now stylesheet
          self releases format_type = Return document).
Proof.
  assert (Hperm : Permutation (newest_first releases) releases)
    by apply sort_desc_perm.
  split; [|split].
  - intros Hne Hnone.
    change (_format_html strftime now stylesheet self releases = Raise ValueError).
    unfold _format_html, html_range.
    assert (Hs : Forall (fun g => Group.date g = None) (newest_first releases)).
    { rewrite Forall_forall in *. intros g Hg. apply Hnone.
      exact (Permutation_in _ Hperm Hg). }
    rewrite (dates_none _ Hs).
    destruct (newest_first releases) as [|g gs] eqn:E; [|reflexivity].
    apply Permutation_nil in Hperm. contradiction.
  - intro H.
    change (exists document,
               _format_html strftime now stylesheet self releases
               = Return document).
    unfold _format_html, html_range.
    destruct (newest_first releases) as [|g gs] eqn:E; [eauto|].
    destruct H as [->|Hex]; [discriminate E|].
    assert (Hd : dates (g :: gs) <> []).
    { apply dates_some.
      apply Exists_exists in Hex. destruct Hex as [x [Hx Hdx]].
      apply Exists_exists. exists x. split; [|exact Hdx].
      exact (Permutation_in _ (Permutation_sym Hperm) Hx). }
    destruct (dates (g :: gs)) as [|t ts]; [contradiction|].
    simpl. eauto.
  - intros format_type Hne. unfold format_output.
    destruct (String.eqb format_type "json"); [eauto|].
    destruct (String.eqb format_type "markdown"); [eauto|].
    destruct (String.eqb format_type "html") eqn:E; [|eauto].
    apply String.eqb_eq in E. contradiction.
Qed.

(** X16. How a run ends does not depend on the page: with the packages
    missing the status is 1; when [__init__] raises, the exception is not
    caught; otherwise the run ends with status 0 and the document printed,
    or, with an output file, with status 0 and the document saved, status 1
    on an [IOError], and any other exception of the write uncaught. *)
Theorem run_ends_whatever_the_page (args : Args) (world : World) :
  let run := main soup_text strftime isoformat json_dumps now stylesheet
               args world in
  ended run
  = (if negb (packages_installed world) then Exit 1
     else
       match __init__ (clock world) (arg_url args) (arg_months args) with
       | Raise e => Uncaught e
       | Return _ =>
           if text_given (arg_file args) then
             match write world with
             | Return _ => Exit 0
             | Raise IOError => Exit 1
             | Raise e => Uncaught e
             end
           else Exit 0
       end)
  /\ (ended run = Exit 0 ->
      (text_given (arg_file args) = false /\ printed run <> None /\ saved run = None)
      \/ (text_given (arg_file args) = true /\ printed run = None
          /\ saved run <> None))
  /\ (ended run <> Exit 0 -> printed run = None /\ saved run = None).
Proof.
  intro run. subst run. unfold main.
  destruct (packages_installed world); simpl negb; cbv iota;
    [|split; [reflexivity|]; split; [discriminate | auto]].
  destruct (__init__ (clock world) (arg_url args) (arg_months args))
    as [scraper|e]; [|split; [reflexivity|]; split; [discriminate | auto]].
  destruct (scrape_returns_dated (page world) scraper)
    as [self' [log [kept [-> Hdated]]]].
  destruct (render_returns soup_text strftime isoformat json_dumps now
              stylesheet self' _ kept (arg_output args) Hdated)
    as [document ->].
  destruct (text_given (arg_file args)).
  - destruct (write world) as [[]|e]; simpl.
    + split; [reflexivity|]. split; [|intro K; contradiction].
      intros _. right. repeat split; discriminate.
    + destruct e; simpl; (split; [reflexivity|]; split; [discriminate | auto]).
  - simpl. split; [reflexivity|]. split; [|intro K; contradiction].
    intros _. left. repeat split; discriminate.
Qed.

End Reports.

Lemma html_renderer_needs_a_date_witness :
  let render :=
    format_output (fun s => s) (fun _ _ => "2024-06-01"%string)
      (fun _ => "2024-06-01T12:00:00"%string) (fun _ => "{}"%string)
      (fun _ => Sample.noon) [] Sample.scraper in
  render [Sample.undated_group] "html"%string = Raise ValueError
  /\ (exists document, render Sample.kept "html"%string = Return document)
  /\ (exists document,
         render [Sample.undated_group] "json"%string = Return document).
Proof.
  intro render.
  pose (facts := html_renderer_needs_a_date (fun s => s)
                   (fun _ _ => "2024-06-01"%string)
                   (fun _ => "2024-06-01T12:00:00"%string)
                   (fun _ => "{}"%string) (fun _ => Sample.noon) []
                   Sample.scraper).
  split; [|split].
  - apply (proj1 (facts [Sample.undated_group])).
    + discriminate.
    + repeat constructor.
  - apply (proj1 (proj2 (facts Sample.kept))).
    right. apply Exists_cons_hd. discriminate.
  - apply (proj2 (proj2 (facts [Sample.undated_group]))).
    discriminate.
Defined.

(** ** One group for a header *)


